(** * MahaVastu zonal-strength report: the numeric core of [main.py]

    The script reads sixteen zone areas, derives three balance lines
    (LOB, ULOB, LLOB), remarks every zone as High / Balanced / Low, sums
    the zones of the three Prakriti groups, turns the sums into
    percentages and ranks the groups.

    Numbers.  The script is read twice.  The first reading takes a
    Python [float] as an exact rational, or as the not-a-number value
    that pandas fills in for a missing cell; it carries the statements
    on loading, on the keys of the dataset, on the comparisons behind
    the remarks, on the ranking and on the tables of the report.  The
    second reading, the module [Binary64], computes with binary64
    numbers as Python does: sums, quotients and products are rounded,
    they overflow to an infinity, and an infinity divided by an infinity
    is not-a-number.  Every statement on the value of a sum, a quotient
    or a product is made on [Binary64].

    Errors.  An uncaught Python exception ends the script; a computation
    is a value of [result], and the script's statements are chained with
    [x <- e ;; k]. *)

From Stdlib Require Import List String Ascii Bool ZArith QArith Lqa Lia.
From Stdlib Require Import Permutation Sorted.
From Stdlib Require Import Floats.
Import ListNotations.

Local Open Scope Q_scope.
Local Open Scope string_scope.

(** ** Exceptions and results *)

Inductive exn : Type :=
| ZeroDivisionError
| ValueError
| KeyError
| EOFError
| FileNotFoundError
| SystemExit.

Inductive result (A : Type) : Type :=
| Ok (a : A)
| Raise (e : exn).

Arguments Ok {A} a.
Arguments Raise {A} e.

Definition bind {A B : Type} (r : result A) (k : A -> result B) : result B :=
  match r with
  | Ok a => k a
  | Raise e => Raise e
  end.

Notation "x <- e ;; k" := (bind e (fun x => k))
  (at level 61, e at next level, right associativity).

Fixpoint mapM {A B : Type} (f : A -> result B) (l : list A) : result (list B) :=
  match l with
  | [] => Ok []
  | a :: t => b <- f a ;; bs <- mapM f t ;; Ok (b :: bs)
  end.

(** ** Python floats, read exactly *)

Inductive pyfloat : Type :=
| Num (q : Q)
| NaN.

Definition Qlt_bool (x y : Q) : bool := negb (Qle_bool y x).

Definition py_add (a b : pyfloat) : pyfloat :=
  match a, b with
  | Num x, Num y => Num (x + y)
  | _, _ => NaN
  end.

Definition py_mul (a b : pyfloat) : pyfloat :=
  match a, b with
  | Num x, Num y => Num (x * y)
  | _, _ => NaN
  end.

(** [a / b]: a zero divisor raises, whatever [a] is; otherwise NaN spreads. *)
Definition py_truediv (a b : pyfloat) : result pyfloat :=
  match b with
  | Num y =>
      if Qeq_bool y 0 then Raise ZeroDivisionError
      else match a with
           | Num x => Ok (Num (x / y))
           | NaN => Ok NaN
           end
  | NaN => Ok NaN
  end.

(** [a > b] and [a < b]: every comparison with NaN is false. *)
Definition py_gt (a b : pyfloat) : bool :=
  match a, b with
  | Num x, Num y => Qlt_bool y x
  | _, _ => false
  end.

Definition py_lt (a b : pyfloat) : bool :=
  match a, b with
  | Num x, Num y => Qlt_bool x y
  | _, _ => false
  end.

(** The builtins [sum], [len], [max] and [min] on a list of floats.
    [sum] starts from 0 and adds from the left; [max] and [min] keep the
    first item and replace it by a later one only when that one is
    strictly greater (smaller); on an empty list they raise. *)
Definition py_sum (l : list pyfloat) : pyfloat :=
  fold_left py_add l (Num 0).

Definition py_len {A : Type} (l : list A) : pyfloat :=
  Num (inject_Z (Z.of_nat (List.length l))).

Definition py_max (l : list pyfloat) : result pyfloat :=
  match l with
  | [] => Raise ValueError
  | x :: t => Ok (fold_left (fun m y => if py_gt y m then y else m) t x)
  end.

Definition py_min (l : list pyfloat) : result pyfloat :=
  match l with
  | [] => Raise ValueError
  | x :: t => Ok (fold_left (fun m y => if py_lt y m then y else m) t x)
  end.

(** ** The sixteen zones and the Prakriti groups *)

Definition zones : list string :=
  [ "N"; "NNE"; "NE"; "ENE";
    "E"; "ESE"; "SE"; "SSE";
    "S"; "SSW"; "SW"; "WSW";
    "W"; "WNW"; "NW"; "NNW" ].

Definition prakriti_map : list (string * list string) :=
  [ ("Fire", ["E"; "ESE"; "SE"; "SSE"; "S"; "SSW"]);
    ("Water", ["NNW"; "N"; "NNE"; "NE"; "ENE"]);
    ("Air", ["SW"; "WSW"; "W"; "WNW"; "NW"]) ].

(** ** Input: [zone_data]

    A dict keeps its keys in insertion order; [zone_data] is the list of
    its items in that order. *)

Definition dataset : Type := list (string * pyfloat).

Fixpoint assoc {V : Type} (k : string) (d : list (string * V)) : option V :=
  match d with
  | [] => None
  | (k', v) :: t => if String.eqb k k' then Some v else assoc k t
  end.

(** [zone_data[z]] *)
Definition getitem (d : dataset) (z : string) : result pyfloat :=
  match assoc z d with
  | Some v => Ok v
  | None => Raise KeyError
  end.

(** Manual entry: one line of the console per zone, in the order of
    [zones].  A console line is [Some v] when [float] parses it to [v],
    [None] when [float] rejects it; the console can run out of lines. *)
Fixpoint load_manual (zs : list string) (console : list (option pyfloat))
  : result dataset :=
  match zs with
  | [] => Ok []
  | z :: zs' =>
      match console with
      | [] => Raise EOFError
      | None :: _ => Raise ValueError
      | Some v :: console' =>
          d <- load_manual zs' console' ;; Ok ((z, v) :: d)
      end
  end.

(** A sheet is its rows (Zone, Area); an empty Area cell reads as NaN. *)
Definition sheet : Type := list (string * pyfloat).

Fixpoint has_duplicates (l : list string) : bool :=
  match l with
  | [] => false
  | x :: t => existsb (String.eqb x) t || has_duplicates t
  end.

(** What [reindex] puts under label [z]: the area of the row labelled
    [z], and NaN when the sheet has no such row. *)
Definition cell (df : sheet) (z : string) : pyfloat :=
  match assoc z df with
  | Some v => v
  | None => NaN
  end.

(** [df.set_index("Zone").reindex(labels)]: pandas refuses an index with
    a repeated label; otherwise the new frame has one row per requested
    label, in the requested order.  Rows with other labels are dropped. *)
Definition reindex (df : sheet) (labels : list string) : result dataset :=
  if has_duplicates (map fst df) then Raise ValueError
  else Ok (map (fun z => (z, cell df z)) labels).

(** Excel entry: [None] is a path [read_excel] cannot open. *)
Definition load_excel (file : option sheet) : result dataset :=
  match file with
  | None => Raise FileNotFoundError
  | Some df => reindex df zones
  end.

Definition load (choice : string) (console : list (option pyfloat))
  (file : option sheet) : result dataset :=
  if String.eqb choice "1" then load_manual zones console
  else if String.eqb choice "2" then load_excel file
  else Raise SystemExit.

(** [areas = list(zone_data.values())] *)
Definition areas_of (zone_data : dataset) : list pyfloat := map snd zone_data.

(** ** Balance lines *)

Record lines : Type := mkLines { LOB : pyfloat; ULOB : pyfloat; LLOB : pyfloat }.

Definition balance_lines (areas : list pyfloat) : result lines :=
  lob <- py_truediv (py_sum areas) (py_len areas) ;;
  hi <- py_max areas ;;
  ulob <- py_truediv (py_add lob hi) (Num 2) ;;
  lo <- py_min areas ;;
  llob <- py_truediv (py_add lob lo) (Num 2) ;;
  Ok (mkLines lob ulob llob).

(** ** Remarks *)

Definition remark (bl : lines) (v : pyfloat) : string :=
  if py_gt v (ULOB bl) then "High"
  else if py_lt v (LLOB bl) then "Low"
  else "Balanced".

Definition remarks (bl : lines) (zone_data : dataset) : list (string * string) :=
  map (fun zv => (fst zv, remark bl (snd zv))) zone_data.

(** ** Prakriti strengths, percentages and ranking *)

(** [sum(zone_data[z] for z in zlist)]: look up and add, zone by zone. *)
Fixpoint sum_zones (zone_data : dataset) (zlist : list string) (acc : pyfloat)
  : result pyfloat :=
  match zlist with
  | [] => Ok acc
  | z :: t => v <- getitem zone_data z ;; sum_zones zone_data t (py_add acc v)
  end.

Definition prakriti_strength (zone_data : dataset) : result (list (string * pyfloat)) :=
  mapM (fun pz => s <- sum_zones zone_data (snd pz) (Num 0) ;; Ok (fst pz, s))
       prakriti_map.

Definition total_prakriti (strength : list (string * pyfloat)) : pyfloat :=
  py_sum (map snd strength).

Definition prakriti_percentage (strength : list (string * pyfloat))
  : result (list (string * pyfloat)) :=
  mapM (fun pv =>
          q <- py_truediv (snd pv) (total_prakriti strength) ;;
          Ok (fst pv, py_mul q (Num 100)))
       strength.

(** [sorted(items, key=lambda x: x[1], reverse=True)].  CPython reverses
    the list, sorts it stably in ascending order comparing keys with [<],
    and reverses the outcome.  The ascending sort is written as the
    insertion sort that puts an item behind every item it is not smaller
    than; on keys that are numbers every stable sort returns this list. *)
Fixpoint insert_item (x : string * pyfloat) (l : list (string * pyfloat))
  : list (string * pyfloat) :=
  match l with
  | [] => [x]
  | y :: t => if py_lt (snd x) (snd y) then x :: y :: t else y :: insert_item x t
  end.

Definition sort_items (l : list (string * pyfloat)) : list (string * pyfloat) :=
  fold_left (fun acc x => insert_item x acc) l [].

Definition prakriti_sorted (strength : list (string * pyfloat))
  : list (string * pyfloat) :=
  rev (sort_items (rev strength)).

Definition final_prakriti (sorted : list (string * pyfloat)) : string :=
  String.concat "-" (map fst sorted).

(** ** The script, from the loaded data to the figures of the report *)

Record report : Type := mkReport {
  rep_lines : lines;
  rep_remarks : list (string * string);
  rep_strength : list (string * pyfloat);
  rep_percentage : list (string * pyfloat);
  rep_sorted : list (string * pyfloat);
  rep_final : string
}.

Definition analyse (zone_data : dataset) : result report :=
  bl <- balance_lines (areas_of zone_data) ;;
  let rm := remarks bl zone_data in
  strength <- prakriti_strength zone_data ;;
  pct <- prakriti_percentage strength ;;
  let srt := prakriti_sorted strength in
  Ok (mkReport bl rm strength pct srt (final_prakriti srt)).

Definition main (choice : string) (console : list (option pyfloat))
  (file : option sheet) : result report :=
  zone_data <- load choice console file ;;
  analyse zone_data.

(** A dataset of sixteen numbers, keyed by the zones in their order. *)
Definition numeric_data (qs : list Q) : dataset := combine zones (map Num qs).

(** ** What the statements speak of *)

(** The sum of a list of rationals, and what it is to be its greatest or
    its least item. *)
Definition Qsum (qs : list Q) : Q := fold_right Qplus 0 qs.

Definition maximum_of (m : Q) (qs : list Q) : Prop :=
  In m qs /\ forall y, In y qs -> y <= m.

Definition minimum_of (m : Q) (qs : list Q) : Prop :=
  In m qs /\ forall y, In y qs -> m <= y.



(** A small dataset to run the script on: the areas 1, 2, ..., 16. *)
Definition sample_areas : list Q :=
  [1; 2; 3; 4; 5; 6; 7; 8; 9; 10; 11; 12; 13; 14; 15; 16].

(** A sheet with a row for every zone but "SW", each of area 100. *)
Definition sheet_without_SW : sheet :=
  [ ("N", Num 100); ("NNE", Num 100); ("NE", Num 100); ("ENE", Num 100);
    ("E", Num 100); ("ESE", Num 100); ("SE", Num 100); ("SSE", Num 100);
    ("S", Num 100); ("SSW", Num 100); ("WSW", Num 100);
    ("W", Num 100); ("WNW", Num 100); ("NW", Num 100); ("NNW", Num 100) ].

(** The strength entries of the three groups. *)
Definition strengths (f w a : Q) : list (string * pyfloat) :=
  [("Fire", Num f); ("Water", Num w); ("Air", Num a)].






(** ** The tables of the report and the name of its file

    The renderer is outside the model; what is modelled is what the
    script looks up and hands to it. *)

(** [d[k]] on a dict with any values. *)
Definition lookup {V : Type} (d : list (string * V)) (k : string) : result V :=
  match assoc k d with
  | Some v => Ok v
  | None => Raise KeyError
  end.

(** The zone table of page 1: for each zone of [zones], its name,
    [zone_data[z]] and [remarks[z]].  The row keeps the area itself, not
    its text. *)
Definition zone_table (zone_data : dataset) (rm : list (string * string))
  : result (list (string * pyfloat * string)) :=
  mapM (fun z => v <- getitem zone_data z ;; r <- lookup rm z ;; Ok (z, v, r))
       zones.

(** The Prakriti table of page 2: for each key of [prakriti_strength],
    the key, [prakriti_strength[p]] and [prakriti_percentage[p]]. *)
Definition prakriti_table (strength percentage : list (string * pyfloat))
  : result (list (string * pyfloat * pyfloat)) :=
  mapM (fun p => s <- lookup strength p ;; c <- lookup percentage p ;; Ok (p, s, c))
       (map fst strength).

(** A Python [str] is a sequence of code points. *)
Definition code_points (s : string) : list N :=
  map N_of_ascii (list_ascii_of_string s).

(** The code points [str.strip()] removes: CPython's white space. *)
Definition is_space (c : N) : bool :=
  ((9 <=? c) && (c <=? 13) || (28 <=? c) && (c <=? 32)
   || (c =? 133) || (c =? 160) || (c =? 5760)
   || (8192 <=? c) && (c <=? 8202)
   || (c =? 8232) || (c =? 8233) || (c =? 8239) || (c =? 8287)
   || (c =? 12288))%N.

Fixpoint lstrip (s : list N) : list N :=
  match s with
  | [] => []
  | c :: t => if is_space c then lstrip t else s
  end.

Definition rstrip (s : list N) : list N := rev (lstrip (rev s)).

Definition strip (s : list N) : list N := rstrip (lstrip s).

Definition zone_chart : list N := code_points "zone_chart.png".

Definition prakriti_chart : list N := code_points "prakriti_chart.png".

(** The file the report is written to, from the console line that
    answers "Enter PDF file name (without .pdf)". *)
Definition pdf_name (line : list N) : list N :=
  let custom_name := strip line in
  let custom_name :=
    match custom_name with
    | [] => code_points "Mahavastu_Report"
    | _ :: _ => custom_name
    end in
  (custom_name ++ code_points ".pdf")%list.

(** ** The script in binary64

    The same statements of [main.py], lines 86 to 122, on binary64
    values: the areas are the [float]s that [float(input())] returns
    and that a sheet with a column of floats holds.  [sum] adds from
    left to right starting at 0, as the builtin does in CPython up to
    version 3.11 (later versions carry a compensation term, which
    changes rounded sums but not overflowed ones). *)

Module Binary64.

(** [sum] starts at 0 and adds the items from left to right. *)
Definition py_sum (l : list float) : float :=
  fold_left PrimFloat.add l 0%float.

Definition py_len {A : Type} (l : list A) : float :=
  PrimFloat.of_uint63 (Uint63.of_Z (Z.of_nat (List.length l))).

(** [a / b]: a zero divisor, of either sign, raises. *)
Definition py_truediv (a b : float) : result float :=
  if PrimFloat.eqb b 0%float then Raise ZeroDivisionError
  else Ok (PrimFloat.div a b).

(** [a > b] and [a < b]; both are false when an operand is
    not-a-number. *)
Definition py_gt (a b : float) : bool := PrimFloat.ltb b a.

Definition py_lt (a b : float) : bool := PrimFloat.ltb a b.

(** [max] and [min] keep the first item until a later one is greater,
    resp. smaller. *)
Definition py_max (l : list float) : result float :=
  match l with
  | [] => Raise ValueError
  | x :: t => Ok (fold_left (fun m y => if py_gt y m then y else m) t x)
  end.

Definition py_min (l : list float) : result float :=
  match l with
  | [] => Raise ValueError
  | x :: t => Ok (fold_left (fun m y => if py_lt y m then y else m) t x)
  end.

Definition dataset : Type := list (string * float).

Definition getitem (d : dataset) (z : string) : result float :=
  match assoc z d with
  | Some v => Ok v
  | None => Raise KeyError
  end.

Definition areas_of (zone_data : dataset) : list float := map snd zone_data.

Record lines : Type := mkLines { LOB : float; ULOB : float; LLOB : float }.

(** Lines 86 to 88. *)
Definition balance_lines (areas : list float) : result lines :=
  lob <- py_truediv (py_sum areas) (py_len areas) ;;
  hi <- py_max areas ;;
  ulob <- py_truediv (PrimFloat.add lob hi) 2%float ;;
  lo <- py_min areas ;;
  llob <- py_truediv (PrimFloat.add lob lo) 2%float ;;
  Ok (mkLines lob ulob llob).

(** Lines 96 to 104. *)
Definition remark (bl : lines) (v : float) : string :=
  if py_gt v (ULOB bl) then "High"
  else if py_lt v (LLOB bl) then "Low"
  else "Balanced".

Definition remarks (bl : lines) (zone_data : dataset) : list (string * string) :=
  map (fun zv => (fst zv, remark bl (snd zv))) zone_data.

(** Lines 110 to 122. *)
Fixpoint sum_zones (zone_data : dataset) (zlist : list string) (acc : float)
  : result float :=
  match zlist with
  | [] => Ok acc
  | z :: t => v <- getitem zone_data z ;;
              sum_zones zone_data t (PrimFloat.add acc v)
  end.

Definition prakriti_strength (zone_data : dataset) : result (list (string * float)) :=
  mapM (fun pz => s <- sum_zones zone_data (snd pz) 0%float ;; Ok (fst pz, s))
       prakriti_map.

Definition total_prakriti (strength : list (string * float)) : float :=
  py_sum (map snd strength).

Definition prakriti_percentage (strength : list (string * float))
  : result (list (string * float)) :=
  mapM (fun pv =>
          q <- py_truediv (snd pv) (total_prakriti strength) ;;
          Ok (fst pv, PrimFloat.mul q 100%float))
       strength.

(** Lines 86 to 122: the figures computed from the dataset, before the
    ranking. *)
Record figures : Type := mkFigures {
  fig_lines : lines;
  fig_remarks : list (string * string);
  fig_strength : list (string * float);
  fig_percentage : list (string * float)
}.

Definition analyse (zone_data : dataset) : result figures :=
  bl <- balance_lines (areas_of zone_data) ;;
  let rm := remarks bl zone_data in
  strength <- prakriti_strength zone_data ;;
  pct <- prakriti_percentage strength ;;
  Ok (mkFigures bl rm strength pct).

(** The dataset of sixteen values, keyed by the zones in their order. *)
Definition zone_data_of (vs : list float) : dataset := combine zones vs.

End Binary64.

(** ** Binary64 values as integers

    A finite binary64 number is [m * 2^e] with [e >= -1074]; [ival] is
    that number multiplied by [2^1074], an integer.  [rank] extends it to
    the infinities, which it places beyond every finite number;
    not-a-number has no rank. *)

Definition mag (m : positive) (e : Z) : Z := (Zpos m * 2 ^ (e + 1074))%Z.

Definition SFival (f : spec_float) : option Z :=
  match f with
  | S754_zero _ => Some 0%Z
  | S754_finite s m e => Some (cond_Zopp s (mag m e))
  | _ => None
  end.

Definition top : Z := (2 ^ 2098)%Z.

Definition SFrank (f : spec_float) : option Z :=
  match f with
  | S754_infinity s => Some (cond_Zopp s top)
  | S754_nan => None
  | _ => SFival f
  end.

Definition ival (x : float) : option Z := SFival (Prim2SF x).

Definition rank (x : float) : option Z := SFrank (Prim2SF x).

(** The number a finite binary64 value stands for. *)
Definition scale : Z := (2 ^ 1074)%Z.

Definition denominator : positive := (2 ^ 1074)%positive.

Definition value (x : float) : option Q :=
  match ival x with
  | Some z => Some (z # denominator)
  | None => None
  end.

(** The same number, for values known to be finite. *)
Definition number (x : float) : Q :=
  match value x with
  | Some q => q
  | None => 0
  end.

(** ** Operations that do not round

    An operation is exact on given operands when the operands and the
    result are finite and the result stands for the sum, the quotient or
    the product of the numbers the operands stand for. *)

Definition Zsum (zs : list Z) : Z := fold_right Z.add 0%Z zs.

Definition exact_add (x y : float) : bool :=
  match ival x, ival y, ival (PrimFloat.add x y) with
  | Some a, Some b, Some c => (c =? a + b)%Z
  | _, _, _ => false
  end.

Definition exact_div (x y : float) : bool :=
  match ival x, ival y, ival (PrimFloat.div x y) with
  | Some a, Some b, Some c => negb (b =? 0)%Z && (c * b =? a * scale)%Z
  | _, _, _ => false
  end.

Definition exact_mul (x y : float) : bool :=
  match ival x, ival y, ival (PrimFloat.mul x y) with
  | Some a, Some b, Some c => (c * scale =? a * b)%Z
  | _, _, _ => false
  end.

(** [sum] from [acc] on: every addition is exact. *)
Fixpoint exact_sum (acc : float) (l : list float) : bool :=
  match l with
  | [] => true
  | x :: t => exact_add acc x && exact_sum (PrimFloat.add acc x) t
  end.

(** Lines 86 to 88 on [areas]: the sum, its division by the length, the
    two additions and the two halvings are exact. *)
Definition exact_lines (areas : list float) : bool :=
  exact_sum 0%float areas
  && exact_div (Binary64.py_sum areas) (Binary64.py_len areas)
  && match Binary64.balance_lines areas, Binary64.py_max areas,
           Binary64.py_min areas with
     | Ok bl, Ok hi, Ok lo =>
         exact_add (Binary64.LOB bl) hi
         && exact_div (PrimFloat.add (Binary64.LOB bl) hi) 2%float
         && exact_add (Binary64.LOB bl) lo
         && exact_div (PrimFloat.add (Binary64.LOB bl) lo) 2%float
     | _, _, _ => false
     end.

Definition b64_strengths (f w a : float) : list (string * float) :=
  [("Fire", f); ("Water", w); ("Air", a)].

(** The values of the zones of one group, in the order of the group. *)
Definition group_values (zone_data : Binary64.dataset) (zlist : list string)
  : list float :=
  flat_map (fun z => match assoc z zone_data with
                     | Some v => [v]
                     | None => []
                     end) zlist.

(** Lines 110 to 116: the three sums over the groups and the sum of the
    three strengths are exact. *)
Definition exact_strengths (zone_data : Binary64.dataset) : bool :=
  forallb (fun pz => exact_sum 0%float (group_values zone_data (snd pz)))
          prakriti_map
  && match Binary64.prakriti_strength zone_data with
     | Ok s => exact_sum 0%float (map snd s)
     | Raise _ => false
     end.

(** Lines 119 to 122: every division by the total and every
    multiplication by 100 is exact. *)
Definition exact_percentages (zone_data : Binary64.dataset) : bool :=
  match Binary64.prakriti_strength zone_data with
  | Ok s =>
      forallb (fun pv =>
                 exact_div (snd pv) (Binary64.total_prakriti s)
                 && exact_mul (PrimFloat.div (snd pv) (Binary64.total_prakriti s))
                              100%float)
              s
  | Raise _ => false
  end.

(** ** Inputs of the instances below *)

Definition whole_areas : list float :=
  [1; 2; 3; 4; 5; 6; 7; 8; 9; 10; 11; 12; 13; 14; 15; 16]%float.

(** The binary64 numbers that Python writes 0.1, 0.3, 0.7 and 1e308. *)
Definition one_tenth : float := 0x1.999999999999ap-4.

Definition three_tenths : float := 0x1.3333333333333p-2.

Definition seven_tenths : float := 0x1.6666666666666p-1.

Definition huge : float := 0x1.1ccf385ebc8ap+1023.

Definition hundreds : list float := repeat 100%float 16.

Definition zeros : list float := repeat 0%float 16.

(** N = 1e16, NNE = 1, NE = -1e16, the other zones 0. *)
Definition cancelling_areas : list float :=
  [10000000000000000; 1; -10000000000000000; 0; 0; 0; 0; 0;
   0; 0; 0; 0; 0; 0; 0; 0]%float.

(** N = -1e308, E = ESE = 1e308, the other zones 0. *)
Definition overflowing_areas : list float :=
  [PrimFloat.opp huge; 0; 0; 0; huge; huge; 0; 0;
   0; 0; 0; 0; 0; 0; 0; 0]%float.

(** The areas 1 to 16 with the cell of SW left empty. *)
Definition areas_without_SW : list float :=
  [1; 2; 3; 4; 5; 6; 7; 8; 9; 10; nan; 12; 13; 14; 15; 16]%float.

(** * Proofs *)

(** ** Comparisons *)



Lemma Qeq_bool_false_iff (x y : Q) : Qeq_bool x y = false <-> ~ x == y.
Proof.
  split.
  - apply Qeq_bool_neq.
  - intros H. destruct (Qeq_bool x y) eqn:E; [| reflexivity].
    apply Qeq_bool_iff in E. contradiction.
Qed.



(** ** [sum], [max] and [min] on numbers *)









(** ** The balance lines of sixteen numbers *)







(** ** C2 *)



(** ** Prakriti strengths of sixteen numbers *)



Lemma has_duplicates_NoDup (l : list string) :
  has_duplicates l = false -> NoDup l.
Proof.
  induction l as [| x t IH]; intros H; [constructor |].
  simpl in H. apply orb_false_iff in H. destruct H as [Hx Ht].
  constructor; [| now apply IH].
  intros Hin.
  assert (existsb (String.eqb x) t = true); [| congruence].
  apply existsb_exists. exists x. split; [exact Hin | apply String.eqb_refl].
Qed.


(** ** The zones of the three groups *)

Lemma group_zones_NoDup : NoDup (List.concat (map snd prakriti_map)).
Proof. apply has_duplicates_NoDup. reflexivity. Qed.

Lemma zones_NoDup : NoDup zones.
Proof. apply has_duplicates_NoDup. reflexivity. Qed.

Lemma group_zones_are_zones :
  forall z, In z (List.concat (map snd prakriti_map)) <-> In z zones.
Proof. intros z. cbn. tauto. Qed.

(** ** The ranking: a stable sort, strongest first *)















(** ** C7 *)



(** Two groups tie behind the strongest: they stay in declaration order. *)
Example ranking_tie_5_7_5 :
  final_prakriti (prakriti_sorted (strengths 5 7 5)) = "Water-Fire-Air".
Proof. reflexivity. Qed.

Example ranking_tie_7_5_7 :
  final_prakriti (prakriti_sorted (strengths 7 5 7)) = "Fire-Air-Water".
Proof. reflexivity. Qed.

(** ** Not-a-number in the data *)

Lemma py_add_NaN_r (a : pyfloat) : py_add a NaN = NaN.
Proof. now destruct a. Qed.

Lemma fold_py_add_NaN (l : list pyfloat) : fold_left py_add l NaN = NaN.
Proof. induction l as [| x l IH]; [reflexivity | exact IH]. Qed.

Lemma py_sum_with_NaN (l : list pyfloat) (a : pyfloat) :
  In NaN l -> fold_left py_add l a = NaN.
Proof.
  revert a. induction l as [| x l IH]; intros a H; [destruct H |].
  destruct H as [-> | H]; cbn [fold_left].
  - rewrite py_add_NaN_r. apply fold_py_add_NaN.
  - now apply IH.
Qed.

Lemma remark_NaN_lines (v : pyfloat) :
  remark (mkLines NaN NaN NaN) v = "Balanced".
Proof. now destruct v. Qed.

Lemma balance_lines_with_NaN (vs : list pyfloat) :
  List.length vs = 16%nat -> In NaN vs ->
  balance_lines vs = Ok (mkLines NaN NaN NaN).
Proof.
  intros Hlen Hin. unfold balance_lines, py_sum, py_len.
  rewrite (py_sum_with_NaN vs (Num 0) Hin), Hlen.
  destruct vs as [| x t]; [discriminate Hlen |].
  reflexivity.
Qed.

(** With a NaN among the sixteen values the script does not stop: the
    three lines are NaN, every zone is remarked "Balanced", and the
    percentages are computed. *)
Lemma analyse_with_NaN (vs : list pyfloat) :
  List.length vs = 16%nat -> In NaN vs ->
  exists r,
    analyse (combine zones vs) = Ok r
    /\ rep_lines r = mkLines NaN NaN NaN
    /\ rep_remarks r = map (fun z => (z, "Balanced")) zones.
Proof.
  intros Hlen Hin.
  assert (Hbl : balance_lines (areas_of (combine zones vs))
                = Ok (mkLines NaN NaN NaN)).
  { replace (areas_of (combine zones vs)) with vs;
      [now apply balance_lines_with_NaN |].
    do 17 (destruct vs as [| ? vs]; try discriminate Hlen). reflexivity. }
  unfold analyse. rewrite Hbl. cbn [bind].
  do 17 (destruct vs as [| ? vs]; try discriminate Hlen).
  cbn [In] in Hin.
  unfold remarks. cbn [combine zones map fst snd].
  rewrite !remark_NaN_lines.
  repeat (destruct Hin as [-> | Hin]);
    try (destruct Hin);
    cbv [prakriti_strength prakriti_map mapM sum_zones getitem assoc
         String.eqb Ascii.eqb Bool.eqb bind snd fst];
    cbn [py_add]; rewrite ?py_add_NaN_r; cbn [py_add];
    unfold prakriti_percentage, total_prakriti, py_sum;
    cbn [map snd fst fold_left py_add]; rewrite ?py_add_NaN_r;
    cbn [mapM py_truediv bind snd fst];
    eexists; (split; [reflexivity | split; reflexivity]).
Qed.

(** ** C4 *)

Lemma reindex_zones (df : sheet) :
  has_duplicates (map fst df) = false ->
  reindex df zones = Ok (combine zones (map (cell df) zones)).
Proof.
  intros H. unfold reindex. rewrite H. reflexivity.
Qed.

(** C4, as the script has it.  In Excel loading a sheet that repeats no
    zone label is never refused for lacking a zone: the loader returns a
    dataset with the sixteen zones in their order, each zone carrying
    the area of its row, and NaN when the sheet has no such row.  When a
    zone is absent the calculation then runs on that dataset: the three
    balance lines are NaN and every zone is remarked "Balanced". *)
Theorem missing_zone_reads_as_NaN (df : sheet) (console : list (option pyfloat)) :
  has_duplicates (map fst df) = false ->
  exists d,
    load "2" console (Some df) = Ok d
    /\ map fst d = zones
    /\ (forall z, In z zones -> getitem d z = Ok (cell df z))
    /\ (forall z, In z zones -> assoc z df = None -> getitem d z = Ok NaN)
    /\ ((exists z, In z zones /\ assoc z df = None) ->
        exists r,
          main "2" console (Some df) = Ok r
          /\ rep_lines r = mkLines NaN NaN NaN
          /\ rep_remarks r = map (fun z => (z, "Balanced")) zones).
Proof.
  intros Hdup.
  exists (combine zones (map (cell df) zones)).
  assert (Hload : load "2" console (Some df)
                  = Ok (combine zones (map (cell df) zones))).
  { unfold load. cbn [String.eqb Ascii.eqb Bool.eqb load_excel].
    now apply reindex_zones. }
  assert (Hget : forall z, In z zones ->
            getitem (combine zones (map (cell df) zones)) z = Ok (cell df z)).
  { intros z Hz. cbn in Hz.
    repeat (destruct Hz as [<- | Hz]; [reflexivity |]). destruct Hz. }
  split; [exact Hload |].
  split; [reflexivity |].
  split; [exact Hget |].
  split.
  - intros z Hz Hnone. rewrite (Hget z Hz). unfold cell. now rewrite Hnone.
  - intros (z & Hz & Hnone).
    unfold main. rewrite Hload. cbn [bind].
    apply analyse_with_NaN; [reflexivity |].
    apply in_map_iff. exists z. split; [| exact Hz].
    unfold cell. now rewrite Hnone.
Qed.

Lemma missing_zone_reads_as_NaN_witness :
  exists d,
    load "2" [] (Some sheet_without_SW) = Ok d
    /\ map fst d = zones
    /\ (forall z, In z zones -> getitem d z = Ok (cell sheet_without_SW z))
    /\ (forall z, In z zones -> assoc z sheet_without_SW = None ->
                  getitem d z = Ok NaN)
    /\ ((exists z, In z zones /\ assoc z sheet_without_SW = None) ->
        exists r,
          main "2" [] (Some sheet_without_SW) = Ok r
          /\ rep_lines r = mkLines NaN NaN NaN
          /\ rep_remarks r = map (fun z => (z, "Balanced")) zones).
Proof.
  apply (missing_zone_reads_as_NaN sheet_without_SW []). reflexivity.
Defined.

(** The sheet without the "SW" row is loaded, not refused: the dataset
    has "SW" with NaN, and the script goes on to a report. *)
Lemma missing_SW_row_is_loaded :
  In "SW" zones
  /\ assoc "SW" sheet_without_SW = None
  /\ load_excel (Some sheet_without_SW)
     = Ok [ ("N", Num 100); ("NNE", Num 100); ("NE", Num 100); ("ENE", Num 100);
            ("E", Num 100); ("ESE", Num 100); ("SE", Num 100); ("SSE", Num 100);
            ("S", Num 100); ("SSW", Num 100); ("SW", NaN); ("WSW", Num 100);
            ("W", Num 100); ("WNW", Num 100); ("NW", Num 100); ("NNW", Num 100) ]
  /\ (forall e, load_excel (Some sheet_without_SW) <> Raise e)
  /\ exists r,
       main "2" [] (Some sheet_without_SW) = Ok r
       /\ rep_lines r = mkLines NaN NaN NaN
       /\ rep_remarks r = map (fun z => (z, "Balanced")) zones.
Proof.
  split; [cbn; tauto |].
  split; [reflexivity |].
  split; [reflexivity |].
  split; [intros e; discriminate |].
  eexists. split; [vm_compute; reflexivity | split; reflexivity].
Qed.

(** ** Two runs that end early *)

Example other_choice_exits :
  main "3" [] None = Raise SystemExit.
Proof. reflexivity. Qed.

Example unparsed_entry_raises :
  main "1" [Some (Num 4); None] None = Raise ValueError.
Proof. reflexivity. Qed.

(** * The arithmetic of the script in binary64 *)

(** ** The order of binary64 values

    The comparisons of [PrimFloat] agree with the order of the ranks. *)

Lemma digits2_pos_bounds (m : positive) :
  (2 ^ (Zpos (digits2_pos m) - 1) <= Zpos m < 2 ^ Zpos (digits2_pos m))%Z.
Proof.
  induction m as [m IH | m IH |]; cbn [digits2_pos].
  - rewrite Pos2Z.inj_succ.
    replace (Z.succ (Zpos (digits2_pos m)) - 1)%Z with (Z.succ (Zpos (digits2_pos m) - 1))%Z by lia.
    rewrite !Z.pow_succ_r by lia. lia.
  - rewrite Pos2Z.inj_succ.
    replace (Z.succ (Zpos (digits2_pos m)) - 1)%Z with (Z.succ (Zpos (digits2_pos m) - 1))%Z by lia.
    rewrite !Z.pow_succ_r by lia. lia.
  - cbn. lia.
Qed.

Lemma valid_finite (s : bool) (m : positive) (e : Z) :
  valid_binary (S754_finite s m e) = true ->
  (-1074 <= e)%Z /\ (Zpos (digits2_pos m) <= 53)%Z
  /\ ((-1074 < e)%Z -> Zpos (digits2_pos m) = 53%Z).
Proof.
  unfold SpecFloat.valid_binary, bounded, canonical_mantissa, fexp, SpecFloat.emin.
  intros H. apply andb_true_iff in H. destruct H as [H _].
  apply Z.eqb_eq in H. unfold prec, emax in H. lia.
Qed.

Lemma mag_pos (m : positive) (e : Z) : (-1074 <= e)%Z -> (0 < mag m e)%Z.
Proof.
  intros H. unfold mag. apply Z.mul_pos_pos; [lia |].
  apply Z.pow_pos_nonneg; lia.
Qed.

Lemma mag_lt_exp (s1 s2 : bool) (m1 m2 : positive) (e1 e2 : Z) :
  valid_binary (S754_finite s1 m1 e1) = true ->
  valid_binary (S754_finite s2 m2 e2) = true ->
  (e1 < e2)%Z -> (mag m1 e1 < mag m2 e2)%Z.
Proof.
  intros V1 V2 Hlt.
  destruct (valid_finite _ _ _ V1) as (L1 & D1 & _).
  destruct (valid_finite _ _ _ V2) as (L2 & _ & N2).
  pose proof (digits2_pos_bounds m1) as [_ U1].
  pose proof (digits2_pos_bounds m2) as [B2 _].
  rewrite (N2 ltac:(lia)) in B2. change (53 - 1)%Z with 52%Z in B2.
  assert (U1' : (Zpos m1 < 2 ^ 53)%Z).
  { eapply Z.lt_le_trans; [exact U1 |]. apply Z.pow_le_mono_r; lia. }
  unfold mag.
  assert (P1 : (0 < 2 ^ (e1 + 1074))%Z) by (apply Z.pow_pos_nonneg; lia).
  assert (E : (2 ^ (e2 + 1074) = 2 ^ (e2 - e1 - 1) * (2 * 2 ^ (e1 + 1074)))%Z).
  { rewrite <- Z.pow_succ_r by lia. rewrite <- Z.pow_add_r by lia. f_equal. lia. }
  rewrite E.
  assert (P3 : (1 <= 2 ^ (e2 - e1 - 1))%Z).
  { change 1%Z with (2 ^ 0)%Z. apply Z.pow_le_mono_r; lia. }
  change (2 ^ 53)%Z with (2 * 2 ^ 52)%Z in U1'.
  nia.
Qed.

Lemma SFcompare_ival (a b : spec_float) (za zb : Z) :
  valid_binary a = true -> valid_binary b = true ->
  SFival a = Some za -> SFival b = Some zb ->
  SFcompare a b = Some (Z.compare za zb).
Proof.
  intros Va Vb Ha Hb.
  destruct a as [sa | sa | | sa ma ea]; try discriminate Ha;
    destruct b as [sb | sb | | sb mb eb]; try discriminate Hb;
    cbv beta iota delta [SFival] in Ha, Hb;
    injection Ha as <-; injection Hb as <-.
  - reflexivity.
  - pose proof (mag_pos mb eb (proj1 (valid_finite _ _ _ Vb))) as P.
    cbn [SFcompare].
    destruct sb; cbn [cond_Zopp]; f_equal; symmetry.
    + apply Z.compare_gt_iff. lia.
    + apply Z.compare_lt_iff. lia.
  - pose proof (mag_pos ma ea (proj1 (valid_finite _ _ _ Va))) as P.
    cbn [SFcompare].
    destruct sa; cbn [cond_Zopp]; f_equal; symmetry.
    + apply Z.compare_lt_iff. lia.
    + apply Z.compare_gt_iff. lia.
  - pose proof (mag_pos ma ea (proj1 (valid_finite _ _ _ Va))) as Pa.
    pose proof (mag_pos mb eb (proj1 (valid_finite _ _ _ Vb))) as Pb.
    cbn [SFcompare].
    assert (Hlt : (ea < eb)%Z -> (mag ma ea < mag mb eb)%Z)
      by (apply (mag_lt_exp sa sb); assumption).
    assert (Hgt : (eb < ea)%Z -> (mag mb eb < mag ma ea)%Z)
      by (apply (mag_lt_exp sb sa); assumption).
    assert (Heq : ea = eb ->
              Pos.compare_cont Eq ma mb = Z.compare (mag ma ea) (mag mb eb)).
    { intros ->. change (Pos.compare_cont Eq ma mb) with (Z.compare (Zpos ma) (Zpos mb)).
      unfold mag. apply Zmult_compare_compat_r. apply Z.lt_gt.
      apply Z.pow_pos_nonneg; [lia |]. pose proof (valid_finite _ _ _ Vb). lia. }
    destruct sa, sb; cbn [cond_Zopp]; f_equal.
    + rewrite Z.compare_opp.
      destruct (Z.compare_spec ea eb) as [E | L | G].
      * rewrite (Heq E). symmetry. apply Z.compare_antisym.
      * symmetry. apply Z.compare_gt_iff. exact (Hlt L).
      * symmetry. apply Z.compare_lt_iff. exact (Hgt G).
    + symmetry. apply Z.compare_lt_iff. lia.
    + symmetry. apply Z.compare_gt_iff. lia.
    + destruct (Z.compare_spec ea eb) as [E | L | G].
      * exact (Heq E).
      * symmetry. apply Z.compare_lt_iff. exact (Hlt L).
      * symmetry. apply Z.compare_gt_iff. exact (Hgt G).
Qed.

Lemma mag_lt_top (s : bool) (m : positive) (e : Z) :
  valid_binary (S754_finite s m e) = true -> (mag m e < top)%Z.
Proof.
  intros V. destruct (valid_finite _ _ _ V) as (L & D & _).
  assert (He : (e <= 971)%Z).
  { unfold SpecFloat.valid_binary, bounded in V.
    apply andb_true_iff in V. destruct V as [_ V].
    apply Z.leb_le in V. unfold prec, emax in V. lia. }
  pose proof (digits2_pos_bounds m) as [_ U].
  assert (U' : (Zpos m < 2 ^ 53)%Z).
  { eapply Z.lt_le_trans; [exact U |]. apply Z.pow_le_mono_r; lia. }
  unfold mag, top.
  assert (P : (0 < 2 ^ (e + 1074))%Z) by (apply Z.pow_pos_nonneg; lia).
  assert (M : (2 ^ (e + 1074) <= 2 ^ 2045)%Z) by (apply Z.pow_le_mono_r; lia).
  replace (2 ^ 2098)%Z with (2 ^ 53 * 2 ^ 2045)%Z
    by (rewrite <- Z.pow_add_r by lia; reflexivity).
  assert (P53 : (0 < 2 ^ 53)%Z) by (apply Z.pow_pos_nonneg; lia).
  nia.
Qed.

Lemma SFival_bounds (f : spec_float) (z : Z) :
  valid_binary f = true -> SFival f = Some z -> (- top < z < top)%Z.
Proof.
  intros V H. destruct f as [s | s | | s m e]; try discriminate H.
  - injection H as <-. unfold top.
    assert (0 < 2 ^ 2098)%Z by (apply Z.pow_pos_nonneg; lia). lia.
  - cbv beta iota delta [SFival] in H. injection H as <-.
    pose proof (mag_lt_top s m e V).
    pose proof (mag_pos m e (proj1 (valid_finite _ _ _ V))).
    destruct s; cbn [cond_Zopp]; lia.
Qed.

Lemma SFcompare_rank (a b : spec_float) (za zb : Z) :
  valid_binary a = true -> valid_binary b = true ->
  SFrank a = Some za -> SFrank b = Some zb ->
  SFcompare a b = Some (Z.compare za zb).
Proof.
  intros Va Vb Ha Hb.
  assert (T : (0 < top)%Z) by (apply Z.pow_pos_nonneg; lia).
  destruct a as [sa | sa | | sa ma ea] eqn:Ea;
    destruct b as [sb | sb | | sb mb eb] eqn:Eb;
    try discriminate Ha; try discriminate Hb;
    try (rewrite <- Ea, <- Eb; apply SFcompare_ival;
         subst; assumption).
  all: cbv beta iota delta [SFrank] in Ha, Hb.
  all: try (pose proof (SFival_bounds _ _ Va Ha) as Ba).
  all: try (pose proof (SFival_bounds _ _ Vb Hb) as Bb).
  all: try (injection Ha as <-).
  all: try (injection Hb as <-).
  all: cbn [SFcompare].
  all: try destruct sa; try destruct sb; cbn [cond_Zopp] in *; f_equal; symmetry.
  all: first [ apply Z.compare_eq_iff; lia
             | apply Z.compare_lt_iff; lia
             | apply Z.compare_gt_iff; lia ].
Qed.

Lemma ival_rank (x : float) (z : Z) : ival x = Some z -> rank x = Some z.
Proof.
  unfold ival, rank. destruct (Prim2SF x); cbn; congruence.
Qed.

Lemma ltb_rank (x y : float) (a b : Z) :
  rank x = Some a -> rank y = Some b -> PrimFloat.ltb x y = (a <? b)%Z.
Proof.
  intros Hx Hy. rewrite ltb_spec. unfold SFltb.
  rewrite (SFcompare_rank _ _ a b (Prim2SF_valid x) (Prim2SF_valid y) Hx Hy).
  reflexivity.
Qed.

Lemma leb_rank (x y : float) (a b : Z) :
  rank x = Some a -> rank y = Some b -> PrimFloat.leb x y = (a <=? b)%Z.
Proof.
  intros Hx Hy. rewrite leb_spec. unfold SFleb.
  rewrite (SFcompare_rank _ _ a b (Prim2SF_valid x) (Prim2SF_valid y) Hx Hy).
  unfold Z.leb. destruct (a ?= b)%Z; reflexivity.
Qed.

Lemma eqb_rank (x y : float) (a b : Z) :
  rank x = Some a -> rank y = Some b -> PrimFloat.eqb x y = (a =? b)%Z.
Proof.
  intros Hx Hy. rewrite eqb_spec. unfold SFeqb.
  rewrite (SFcompare_rank _ _ a b (Prim2SF_valid x) (Prim2SF_valid y) Hx Hy).
  destruct (Z.eqb_spec a b) as [-> | Hne].
  - now rewrite Z.compare_refl.
  - destruct (a ?= b)%Z eqn:C; try reflexivity.
    apply Z.compare_eq in C. contradiction.
Qed.

Lemma ltb_unranked_l (x y : float) : rank x = None -> PrimFloat.ltb x y = false.
Proof.
  unfold rank. intros H. rewrite ltb_spec. unfold SFltb.
  destruct (Prim2SF x); try discriminate H; reflexivity.
Qed.

Lemma ltb_unranked_r (x y : float) : rank y = None -> PrimFloat.ltb x y = false.
Proof.
  unfold rank. intros H. rewrite ltb_spec. unfold SFltb.
  destruct (Prim2SF y); try discriminate H.
  destruct (Prim2SF x); reflexivity.
Qed.

Lemma eqb_unranked_l (x y : float) : rank x = None -> PrimFloat.eqb x y = false.
Proof.
  unfold rank. intros H. rewrite eqb_spec. unfold SFeqb.
  destruct (Prim2SF x); try discriminate H. reflexivity.
Qed.

Lemma eqb_unranked (x y : float) : rank y = None -> PrimFloat.eqb x y = false.
Proof.
  unfold rank. intros H. rewrite eqb_spec. unfold SFeqb.
  destruct (Prim2SF y); try discriminate H.
  destruct (Prim2SF x); reflexivity.
Qed.

Lemma ltb_irrefl (x : float) : PrimFloat.ltb x x = false.
Proof.
  destruct (rank x) as [a |] eqn:E.
  - rewrite (ltb_rank x x a a E E). apply Z.ltb_irrefl.
  - now apply ltb_unranked_l.
Qed.

Lemma ltb_trans (x y z : float) :
  PrimFloat.ltb x y = true -> PrimFloat.ltb y z = true -> PrimFloat.ltb x z = true.
Proof.
  intros Hxy Hyz.
  destruct (rank x) as [a |] eqn:Ex;
    [| rewrite (ltb_unranked_l x y Ex) in Hxy; discriminate Hxy].
  destruct (rank y) as [b |] eqn:Ey;
    [| rewrite (ltb_unranked_r x y Ey) in Hxy; discriminate Hxy].
  destruct (rank z) as [c |] eqn:Ez;
    [| rewrite (ltb_unranked_r y z Ez) in Hyz; discriminate Hyz].
  rewrite (ltb_rank _ _ _ _ Ex Ey) in Hxy.
  rewrite (ltb_rank _ _ _ _ Ey Ez) in Hyz.
  rewrite (ltb_rank _ _ _ _ Ex Ez).
  apply Z.ltb_lt in Hxy, Hyz. apply Z.ltb_lt. lia.
Qed.

Lemma ltb_asym (x y : float) :
  PrimFloat.ltb x y = true -> PrimFloat.ltb y x = false.
Proof.
  intros H. destruct (PrimFloat.ltb y x) eqn:E; [| reflexivity].
  pose proof (ltb_trans _ _ _ H E) as C. rewrite ltb_irrefl in C. discriminate C.
Qed.

Lemma leb_ival (x y : float) (a b : Z) :
  ival x = Some a -> ival y = Some b -> PrimFloat.leb x y = (a <=? b)%Z.
Proof. intros Hx Hy. apply leb_rank; now apply ival_rank. Qed.

Lemma ltb_ival (x y : float) (a b : Z) :
  ival x = Some a -> ival y = Some b -> PrimFloat.ltb x y = (a <? b)%Z.
Proof. intros Hx Hy. apply ltb_rank; now apply ival_rank. Qed.

Lemma eqb_ival (x y : float) (a b : Z) :
  ival x = Some a -> ival y = Some b -> PrimFloat.eqb x y = (a =? b)%Z.
Proof. intros Hx Hy. apply eqb_rank; now apply ival_rank. Qed.

Lemma ival_bounds (x : float) (a : Z) :
  ival x = Some a -> (- top < a < top)%Z.
Proof. apply SFival_bounds. apply Prim2SF_valid. Qed.

Lemma top_pos : (0 < top)%Z.
Proof. unfold top. apply Z.pow_pos_nonneg; lia. Qed.

Lemma rank_finite (x : float) (a : Z) :
  rank x = Some a -> (- top < a < top)%Z -> ival x = Some a.
Proof.
  unfold rank, ival. destruct (Prim2SF x) as [s | s | | s m e]; cbn; try congruence.
  intros H B. injection H as <-. destruct s; cbn [cond_Zopp] in B; lia.
Qed.

(** A value equal, as Python's [==] has it, to a finite one is finite
    and stands for the same number. *)
Lemma eqb_same_ival (x y : float) (a : Z) :
  ival x = Some a -> PrimFloat.eqb x y = true -> ival y = Some a.
Proof.
  intros Hx H. destruct (rank y) as [b |] eqn:Ry.
  - rewrite (eqb_rank _ _ _ _ (ival_rank _ _ Hx) Ry) in H.
    apply Z.eqb_eq in H. subst b.
    apply rank_finite; [exact Ry | now apply (ival_bounds x)].
  - rewrite (eqb_unranked x y Ry) in H. discriminate H.
Qed.

(** ** Constants and zeros *)

Lemma scale_pos : (0 < scale)%Z.
Proof. unfold scale. apply Z.pow_pos_nonneg; lia. Qed.

Lemma ival_0 : ival 0%float = Some 0%Z.
Proof. reflexivity. Qed.

Lemma ival_2 : ival 2%float = Some (2 * scale)%Z.
Proof. vm_compute. reflexivity. Qed.

Lemma ival_16 : ival 16%float = Some (16 * scale)%Z.
Proof. vm_compute. reflexivity. Qed.

Lemma ival_100 : ival 100%float = Some (100 * scale)%Z.
Proof. vm_compute. reflexivity. Qed.

Lemma eqb_zero_ival (x : float) :
  PrimFloat.eqb x 0%float = true <-> ival x = Some 0%Z.
Proof.
  split.
  - intros H. destruct (rank x) as [b |] eqn:Rx.
    + rewrite (eqb_rank _ _ _ _ Rx (ival_rank _ _ ival_0)) in H.
      apply Z.eqb_eq in H. subst b.
      apply rank_finite; [exact Rx | pose proof top_pos; lia].
    + rewrite (eqb_unranked_l x _ Rx) in H. discriminate H.
  - intros H. rewrite (eqb_ival _ _ _ _ H ival_0). reflexivity.
Qed.

Lemma ival_zero_cases (x : float) :
  ival x = Some 0%Z -> x = 0%float \/ x = (-0)%float.
Proof.
  intros H. unfold ival in H.
  pose proof (Prim2SF_valid x) as V.
  pose proof (SF2Prim_Prim2SF x) as R.
  destruct (Prim2SF x) as [s | s | | s m e]; try discriminate H.
  - rewrite <- R. destruct s; [right | left]; reflexivity.
  - exfalso. destruct (valid_finite _ _ _ V) as [He _].
    pose proof (mag_pos m e He).
    cbv beta iota delta [SFival] in H. injection H as H.
    destruct s; cbn [cond_Zopp] in H; lia.
Qed.

Lemma add_zeros (x y : float) :
  ival x = Some 0%Z -> ival y = Some 0%Z ->
  ival (PrimFloat.add x y) = Some 0%Z.
Proof.
  intros Hx Hy.
  destruct (ival_zero_cases x Hx) as [-> | ->];
    destruct (ival_zero_cases y Hy) as [-> | ->]; reflexivity.
Qed.

Lemma sum_of_zeros (l : list float) (acc : float) :
  ival acc = Some 0%Z -> (forall v, In v l -> ival v = Some 0%Z) ->
  ival (fold_left PrimFloat.add l acc) = Some 0%Z.
Proof.
  revert acc. induction l as [| x l IH]; intros acc Ha Hl; [exact Ha |].
  cbn [fold_left]. apply IH.
  - apply add_zeros; [exact Ha | apply Hl; now left].
  - intros v Hv. apply Hl. now right.
Qed.

(** ** What exactness gives *)

Lemma exact_add_spec (x y : float) :
  exact_add x y = true ->
  exists a b, ival x = Some a /\ ival y = Some b
              /\ ival (PrimFloat.add x y) = Some (a + b)%Z.
Proof.
  unfold exact_add.
  destruct (ival x) as [a |]; [| discriminate].
  destruct (ival y) as [b |]; [| discriminate].
  destruct (ival (PrimFloat.add x y)) as [c |]; [| discriminate].
  intros H. apply Z.eqb_eq in H. subst c. now exists a, b.
Qed.

Lemma exact_div_spec (x y : float) :
  exact_div x y = true ->
  exists a b c, ival x = Some a /\ ival y = Some b
                /\ ival (PrimFloat.div x y) = Some c
                /\ b <> 0%Z /\ (c * b = a * scale)%Z.
Proof.
  unfold exact_div.
  destruct (ival x) as [a |]; [| discriminate].
  destruct (ival y) as [b |]; [| discriminate].
  destruct (ival (PrimFloat.div x y)) as [c |]; [| discriminate].
  intros H. apply andb_true_iff in H. destruct H as [Hb Hc].
  apply negb_true_iff, Z.eqb_neq in Hb. apply Z.eqb_eq in Hc.
  now exists a, b, c.
Qed.

Lemma exact_mul_spec (x y : float) :
  exact_mul x y = true ->
  exists a b c, ival x = Some a /\ ival y = Some b
                /\ ival (PrimFloat.mul x y) = Some c
                /\ (c * scale = a * b)%Z.
Proof.
  unfold exact_mul.
  destruct (ival x) as [a |]; [| discriminate].
  destruct (ival y) as [b |]; [| discriminate].
  destruct (ival (PrimFloat.mul x y)) as [c |]; [| discriminate].
  intros H. apply Z.eqb_eq in H. now exists a, b, c.
Qed.

Lemma exact_sum_spec (l : list float) (acc : float) (a : Z) :
  ival acc = Some a -> exact_sum acc l = true ->
  exists zs, map ival l = map Some zs
             /\ ival (fold_left PrimFloat.add l acc) = Some (a + Zsum zs)%Z.
Proof.
  revert acc a. induction l as [| x l IH]; intros acc a Ha H.
  - exists []. split; [reflexivity |]. cbn [fold_left]. rewrite Ha. f_equal.
    change (Zsum []) with 0%Z. lia.
  - cbn [exact_sum] in H. apply andb_true_iff in H. destruct H as [H1 H2].
    destruct (exact_add_spec _ _ H1) as (a' & b & Ea & Eb & Ec).
    rewrite Ha in Ea. injection Ea as <-.
    destruct (IH _ _ Ec H2) as (zs & Hm & Hs).
    exists (b :: zs). split.
    + cbn [map]. now rewrite Eb, Hm.
    + cbn [fold_left]. rewrite Hs. f_equal.
      change (Zsum (b :: zs)) with (b + Zsum zs)%Z. lia.
Qed.

Lemma exact_sum_0_spec (l : list float) :
  exact_sum 0%float l = true ->
  exists zs, map ival l = map Some zs
             /\ ival (Binary64.py_sum l) = Some (Zsum zs).
Proof.
  intros H. destruct (exact_sum_spec l 0%float 0%Z ival_0 H) as (zs & Hm & Hs).
  exists zs. split; [exact Hm |]. unfold Binary64.py_sum. rewrite Hs.
  reflexivity.
Qed.

Lemma exact_half_spec (x : float) :
  exact_div x 2%float = true ->
  exists a c, ival x = Some a /\ ival (PrimFloat.div x 2) = Some c
              /\ (2 * c = a)%Z.
Proof.
  intros H. destruct (exact_div_spec _ _ H) as (a & b & c & Ea & Eb & Ec & _ & E).
  assert (Hb : b = (2 * scale)%Z) by (pose proof ival_2; congruence).
  subst b.
  exists a, c. split; [exact Ea |]. split; [exact Ec |].
  pose proof scale_pos. apply (Z.mul_reg_r _ _ scale); lia.
Qed.

Lemma exact_sixteenth_spec (x : float) :
  exact_div x 16%float = true ->
  exists a c, ival x = Some a /\ ival (PrimFloat.div x 16) = Some c
              /\ (16 * c = a)%Z.
Proof.
  intros H. destruct (exact_div_spec _ _ H) as (a & b & c & Ea & Eb & Ec & _ & E).
  assert (Hb : b = (16 * scale)%Z) by (pose proof ival_16; congruence).
  subst b.
  exists a, c. split; [exact Ea |]. split; [exact Ec |].
  pose proof scale_pos. apply (Z.mul_reg_r _ _ scale); lia.
Qed.

Lemma ivals_member (vs : list float) (zs : list Z) (y : float) :
  map ival vs = map Some zs -> In y vs ->
  exists z, ival y = Some z /\ In z zs.
Proof.
  revert zs. induction vs as [| v vs IH]; intros zs H Hy; [destruct Hy |].
  destruct zs as [| z zs]; [discriminate H |].
  cbn [map] in H. injection H as Hv Hrest.
  destruct Hy as [<- | Hy].
  - exists z. split; [exact Hv | now left].
  - destruct (IH zs Hrest Hy) as (z' & Hz & Hin). exists z'. split; [exact Hz | now right].
Qed.

Lemma ivals_source (vs : list float) (zs : list Z) (z : Z) :
  map ival vs = map Some zs -> In z zs ->
  exists y, ival y = Some z /\ In y vs.
Proof.
  revert zs. induction vs as [| v vs IH]; intros zs H Hz.
  - destruct zs; [destruct Hz | discriminate H].
  - destruct zs as [| z0 zs]; [destruct Hz |].
    cbn [map] in H. injection H as Hv Hrest.
    destruct Hz as [<- | Hz].
    + exists v. split; [exact Hv | now left].
    + destruct (IH zs Hrest Hz) as (y & Hy & Hin). exists y. split; [exact Hy | now right].
Qed.

Lemma ivals_length (vs : list float) (zs : list Z) :
  map ival vs = map Some zs -> List.length zs = List.length vs.
Proof.
  intros H. apply (f_equal (@List.length _)) in H.
  now rewrite !length_map in H.
Qed.

Lemma map_Some_inj {A : Type} (l l' : list A) :
  map Some l = map Some l' -> l = l'.
Proof.
  revert l'. induction l as [| x l IH]; intros [| y l'] H;
    try discriminate H.
  - reflexivity.
  - cbn [map] in H. injection H as -> H. f_equal. now apply IH.
Qed.

Lemma ivals_fixed (vs : list float) (zs zs' : list Z) :
  map ival vs = map Some zs -> map ival vs = map Some zs' -> zs = zs'.
Proof. intros H H'. apply map_Some_inj. congruence. Qed.

Lemma Zsum_upper (zs : list Z) (m : Z) :
  (forall z, In z zs -> (z <= m)%Z) ->
  (Zsum zs <= Z.of_nat (List.length zs) * m)%Z.
Proof.
  induction zs as [| z zs IH]; intros H; [cbn; lia |].
  change (Zsum (z :: zs)) with (z + Zsum zs)%Z.
  cbn [List.length]. rewrite Nat2Z.inj_succ.
  pose proof (H z (or_introl eq_refl)).
  assert (Zsum zs <= Z.of_nat (List.length zs) * m)%Z
    by (apply IH; intros y Hy; apply H; now right).
  lia.
Qed.

Lemma Zsum_lower (zs : list Z) (m : Z) :
  (forall z, In z zs -> (m <= z)%Z) ->
  (Z.of_nat (List.length zs) * m <= Zsum zs)%Z.
Proof.
  induction zs as [| z zs IH]; intros H; [cbn; lia |].
  change (Zsum (z :: zs)) with (z + Zsum zs)%Z.
  cbn [List.length]. rewrite Nat2Z.inj_succ.
  pose proof (H z (or_introl eq_refl)).
  assert (Z.of_nat (List.length zs) * m <= Zsum zs)%Z
    by (apply IH; intros y Hy; apply H; now right).
  lia.
Qed.

Lemma Zsum_upper_strict (zs : list Z) (m y0 : Z) :
  (forall z, In z zs -> (z <= m)%Z) -> In y0 zs -> (y0 < m)%Z ->
  (Zsum zs < Z.of_nat (List.length zs) * m)%Z.
Proof.
  induction zs as [| z zs IH]; intros H Hin Hlt; [destruct Hin |].
  change (Zsum (z :: zs)) with (z + Zsum zs)%Z.
  cbn [List.length]. rewrite Nat2Z.inj_succ.
  pose proof (H z (or_introl eq_refl)) as Hz.
  assert (Hrest : forall y, In y zs -> (y <= m)%Z)
    by (intros y Hy; apply H; now right).
  destruct Hin as [-> | Hin].
  - pose proof (Zsum_upper zs m Hrest). lia.
  - pose proof (IH Hrest Hin Hlt). lia.
Qed.

Lemma Zsum_lower_strict (zs : list Z) (m y0 : Z) :
  (forall z, In z zs -> (m <= z)%Z) -> In y0 zs -> (m < y0)%Z ->
  (Z.of_nat (List.length zs) * m < Zsum zs)%Z.
Proof.
  induction zs as [| z zs IH]; intros H Hin Hlt; [destruct Hin |].
  change (Zsum (z :: zs)) with (z + Zsum zs)%Z.
  cbn [List.length]. rewrite Nat2Z.inj_succ.
  pose proof (H z (or_introl eq_refl)) as Hz.
  assert (Hrest : forall y, In y zs -> (m <= y)%Z)
    by (intros y Hy; apply H; now right).
  destruct Hin as [-> | Hin].
  - pose proof (Zsum_lower zs m Hrest). lia.
  - pose proof (IH Hrest Hin Hlt). lia.
Qed.

Lemma Zsum_zero_all_zero (zs : list Z) :
  (forall z, In z zs -> (0 <= z)%Z) -> Zsum zs = 0%Z ->
  forall z, In z zs -> z = 0%Z.
Proof.
  induction zs as [| x zs IH]; intros Hpos Hsum z Hz; [destruct Hz |].
  change (Zsum (x :: zs)) with (x + Zsum zs)%Z in Hsum.
  assert (Hx : (0 <= x)%Z) by (apply Hpos; now left).
  assert (Hrest : (0 <= Zsum zs)%Z).
  { pose proof (Zsum_lower zs 0%Z) as L.
    assert (forall z, In z zs -> (0 <= z)%Z) as P
        by (intros y Hy; apply Hpos; now right).
    specialize (L P). lia. }
  destruct Hz as [<- | Hz]; [lia |].
  apply IH; [intros y Hy; apply Hpos; now right | lia | exact Hz].
Qed.

(** ** Values as rationals *)

Lemma Zpos_denominator : Zpos denominator = scale.
Proof. reflexivity. Qed.

Lemma same_denominator_plus (a b : Z) :
  (a # denominator) + (b # denominator) == (a + b # denominator).
Proof. unfold Qeq, Qplus. cbn [Qnum Qden]. rewrite Pos2Z.inj_mul. ring. Qed.

Lemma Qsum3_same_denominator (a b c : Z) :
  (a # denominator) + (b # denominator) + (c # denominator)
  == (a + b + c # denominator).
Proof. now rewrite !same_denominator_plus. Qed.

Lemma Qsum_same_denominator (zs : list Z) :
  Qsum (map (fun z => z # denominator) zs) == (Zsum zs # denominator).
Proof.
  induction zs as [| z zs IH].
  - reflexivity.
  - change (Qsum (map (fun z => z # denominator) (z :: zs)))
      with ((z # denominator) + Qsum (map (fun z => z # denominator) zs)).
    rewrite IH, same_denominator_plus. reflexivity.
Qed.

Lemma values_of_ivals (vs : list float) (zs : list Z) :
  map ival vs = map Some zs ->
  map value vs = map Some (map (fun z => z # denominator) zs).
Proof.
  revert zs. induction vs as [| v vs IH]; intros zs H.
  - destruct zs; [reflexivity | discriminate H].
  - destruct zs as [| z zs]; [discriminate H |].
    cbn [map] in H |- *. injection H as Hv Hrest.
    unfold value at 1. rewrite Hv. f_equal. now apply IH.
Qed.

Lemma value_ival (x : float) (z : Z) :
  ival x = Some z -> value x = Some (z # denominator).
Proof. intros H. unfold value. now rewrite H. Qed.

(** ** [max], [min] and the balance lines *)

Lemma b64_len_16 {A : Type} (l : list A) :
  List.length l = 16%nat -> Binary64.py_len l = 16%float.
Proof. intros H. unfold Binary64.py_len. rewrite H. reflexivity. Qed.

Lemma b64_max_fold (t : list float) (x : float) :
  let m := fold_left (fun m y => if Binary64.py_gt y m then y else m) t x in
  (m = x \/ PrimFloat.ltb x m = true)
  /\ In m (x :: t)
  /\ forall y, In y t -> PrimFloat.ltb m y = false.
Proof.
  revert x. induction t as [| y t IH]; intros x; cbn zeta.
  - split; [now left |]. split; [now left |]. intros y [].
  - cbn [fold_left]. change (Binary64.py_gt y x) with (PrimFloat.ltb x y).
    destruct (PrimFloat.ltb x y) eqn:E.
    + destruct (IH y) as (Hm & Hin & Hle).
      set (m := fold_left _ t y) in *.
      assert (Hxm : PrimFloat.ltb x m = true).
      { destruct Hm as [-> | Hm]; [exact E | exact (ltb_trans _ _ _ E Hm)]. }
      split; [now right |]. split; [cbn [In] in Hin |- *; tauto |].
      intros z [<- | Hz]; [| now apply Hle].
      destruct Hm as [-> | Hm]; [apply ltb_irrefl | now apply ltb_asym].
    + destruct (IH x) as (Hm & Hin & Hle).
      set (m := fold_left _ t x) in *.
      split; [exact Hm |]. split; [cbn [In] in Hin |- *; tauto |].
      intros z [<- | Hz]; [| now apply Hle].
      destruct Hm as [-> | Hm]; [exact E |].
      destruct (PrimFloat.ltb m y) eqn:Ey; [| reflexivity].
      rewrite (ltb_trans _ _ _ Hm Ey) in E. discriminate E.
Qed.

Lemma b64_max_spec (x : float) (t : list float) :
  exists hi, Binary64.py_max (x :: t) = Ok hi
    /\ In hi (x :: t)
    /\ forall y, In y (x :: t) -> PrimFloat.ltb hi y = false.
Proof.
  destruct (b64_max_fold t x) as (Hm & Hin & Hle).
  eexists. split; [reflexivity |]. split; [exact Hin |].
  intros y [<- | Hy]; [| now apply Hle].
  destruct Hm as [-> | Hm]; [apply ltb_irrefl | now apply ltb_asym].
Qed.

Lemma b64_min_fold (t : list float) (x : float) :
  let m := fold_left (fun m y => if Binary64.py_lt y m then y else m) t x in
  (m = x \/ PrimFloat.ltb m x = true)
  /\ In m (x :: t)
  /\ forall y, In y t -> PrimFloat.ltb y m = false.
Proof.
  revert x. induction t as [| y t IH]; intros x; cbn zeta.
  - split; [now left |]. split; [now left |]. intros y [].
  - cbn [fold_left]. change (Binary64.py_lt y x) with (PrimFloat.ltb y x).
    destruct (PrimFloat.ltb y x) eqn:E.
    + destruct (IH y) as (Hm & Hin & Hle).
      set (m := fold_left _ t y) in *.
      assert (Hxm : PrimFloat.ltb m x = true).
      { destruct Hm as [-> | Hm]; [exact E | exact (ltb_trans _ _ _ Hm E)]. }
      split; [now right |]. split; [cbn [In] in Hin |- *; tauto |].
      intros z [<- | Hz]; [| now apply Hle].
      destruct Hm as [-> | Hm]; [apply ltb_irrefl | now apply ltb_asym].
    + destruct (IH x) as (Hm & Hin & Hle).
      set (m := fold_left _ t x) in *.
      split; [exact Hm |]. split; [cbn [In] in Hin |- *; tauto |].
      intros z [<- | Hz]; [| now apply Hle].
      destruct Hm as [-> | Hm]; [exact E |].
      destruct (PrimFloat.ltb y m) eqn:Ey; [| reflexivity].
      rewrite (ltb_trans _ _ _ Ey Hm) in E. discriminate E.
Qed.

Lemma b64_min_spec (x : float) (t : list float) :
  exists lo, Binary64.py_min (x :: t) = Ok lo
    /\ In lo (x :: t)
    /\ forall y, In y (x :: t) -> PrimFloat.ltb y lo = false.
Proof.
  destruct (b64_min_fold t x) as (Hm & Hin & Hle).
  eexists. split; [reflexivity |]. split; [exact Hin |].
  intros y [<- | Hy]; [| now apply Hle].
  destruct Hm as [-> | Hm]; [apply ltb_irrefl | now apply ltb_asym].
Qed.

(** The lines of sixteen values, whatever they are. *)
Lemma b64_lines (vs : list float) :
  List.length vs = 16%nat ->
  exists hi lo,
    Binary64.py_max vs = Ok hi /\ Binary64.py_min vs = Ok lo
    /\ Binary64.balance_lines vs
       = Ok (Binary64.mkLines
               (PrimFloat.div (Binary64.py_sum vs) 16)
               (PrimFloat.div (PrimFloat.add (PrimFloat.div (Binary64.py_sum vs) 16) hi) 2)
               (PrimFloat.div (PrimFloat.add (PrimFloat.div (Binary64.py_sum vs) 16) lo) 2))
    /\ In hi vs /\ (forall y, In y vs -> PrimFloat.ltb hi y = false)
    /\ In lo vs /\ (forall y, In y vs -> PrimFloat.ltb y lo = false).
Proof.
  intros Hlen. destruct vs as [| x t]; [discriminate Hlen |].
  destruct (b64_max_spec x t) as (hi & Ehi & Hhi & Hmax).
  destruct (b64_min_spec x t) as (lo & Elo & Hlo & Hmin).
  exists hi, lo. split; [exact Ehi |]. split; [exact Elo |].
  split.
  - unfold Binary64.balance_lines.
    rewrite (b64_len_16 _ Hlen), Ehi, Elo. reflexivity.
  - repeat split; assumption.
Qed.

Lemma b64_areas_length (zone_data : Binary64.dataset) :
  List.length (Binary64.areas_of zone_data) = List.length zone_data.
Proof. unfold Binary64.areas_of. apply length_map. Qed.

Lemma b64_value_has_zone (zone_data : Binary64.dataset) (v : float) :
  In v (Binary64.areas_of zone_data) -> exists z, In (z, v) zone_data.
Proof.
  unfold Binary64.areas_of. intros H. apply in_map_iff in H.
  destruct H as ([z v'] & E & H). simpl in E. subst v'. now exists z.
Qed.

Lemma b64_remark_recorded (bl : Binary64.lines) (zone_data : Binary64.dataset)
  (z : string) (v : float) :
  In (z, v) zone_data ->
  In (z, Binary64.remark bl v) (Binary64.remarks bl zone_data).
Proof.
  intros H. unfold Binary64.remarks.
  apply in_map_iff. exists (z, v). split; [reflexivity | exact H].
Qed.

(** The lines of sixteen values computed without rounding, as integers. *)
Lemma exact_lines_spec (vs : list float) :
  List.length vs = 16%nat ->
  exact_lines vs = true ->
  exists lob u l hi lo zs L U Lo H M,
    Binary64.balance_lines vs = Ok (Binary64.mkLines lob u l)
    /\ In hi vs /\ In lo vs
    /\ map ival vs = map Some zs
    /\ ival lob = Some L /\ ival u = Some U /\ ival l = Some Lo
    /\ ival hi = Some H /\ ival lo = Some M
    /\ (forall z, In z zs -> (M <= z <= H)%Z)
    /\ (16 * L = Zsum zs)%Z
    /\ (2 * U = L + H)%Z /\ (2 * Lo = L + M)%Z
    /\ (M <= L <= H)%Z
    /\ In H zs /\ In M zs
    /\ lob = PrimFloat.div (Binary64.py_sum vs) 16
    /\ u = PrimFloat.div (PrimFloat.add lob hi) 2
    /\ l = PrimFloat.div (PrimFloat.add lob lo) 2
    /\ Binary64.py_max vs = Ok hi /\ Binary64.py_min vs = Ok lo.
Proof.
  intros Hlen Hex.
  destruct (b64_lines vs Hlen)
    as (hi & lo & Ehi & Elo & Ebl & Hhi & Hmax & Hlo & Hmin).
  unfold exact_lines in Hex. rewrite Ebl, Ehi, Elo in Hex.
  rewrite (b64_len_16 _ Hlen) in Hex. cbn [Binary64.LOB] in Hex.
  apply andb_true_iff in Hex. destruct Hex as [Hex Hrest].
  apply andb_true_iff in Hex. destruct Hex as [Hex Hdiv].
  apply andb_true_iff in Hrest. destruct Hrest as [Hrest Hd2].
  apply andb_true_iff in Hrest. destruct Hrest as [Hrest Ha2].
  apply andb_true_iff in Hrest. destruct Hrest as [Ha1 Hd1].
  destruct (exact_sum_spec vs 0%float 0%Z ival_0 Hex) as (zs & Hzs & Hsum).
  fold (Binary64.py_sum vs) in Hsum.
  match goal with H : exact_div (Binary64.py_sum vs) _ = true |- _ =>
    destruct (exact_sixteenth_spec _ H) as (S0 & L & ES & EL & E16) end.
  rewrite Hsum in ES. injection ES as <-.
  set (lob := PrimFloat.div (Binary64.py_sum vs) 16) in *.
  match goal with H : exact_add lob hi = true |- _ =>
    destruct (exact_add_spec _ _ H) as (L1 & Hh & EL1 & EH & Eadd1) end.
  match goal with H : exact_add lob lo = true |- _ =>
    destruct (exact_add_spec _ _ H) as (L2 & Mm & EL2 & EM & Eadd2) end.
  rewrite EL in EL1, EL2. injection EL1 as <-. injection EL2 as <-.
  match goal with H : exact_div (PrimFloat.add lob hi) _ = true |- _ =>
    destruct (exact_half_spec _ H) as (A1 & U & EA1 & EU & E2U) end.
  match goal with H : exact_div (PrimFloat.add lob lo) _ = true |- _ =>
    destruct (exact_half_spec _ H) as (A2 & Lo & EA2 & ELo & E2L) end.
  rewrite Eadd1 in EA1. injection EA1 as <-.
  rewrite Eadd2 in EA2. injection EA2 as <-.
  assert (Hbound : forall z, In z zs -> (Mm <= z <= Hh)%Z).
  { intros z Hz. destruct (ivals_source vs zs z Hzs Hz) as (y & Ey & Hy).
    pose proof (Hmax y Hy) as Hm1. pose proof (Hmin y Hy) as Hm2.
    rewrite (ltb_rank _ _ _ _ (ival_rank _ _ EH) (ival_rank _ _ Ey)) in Hm1.
    rewrite (ltb_rank _ _ _ _ (ival_rank _ _ Ey) (ival_rank _ _ EM)) in Hm2.
    apply Z.ltb_ge in Hm1, Hm2. lia. }
  pose proof (Zsum_upper zs Hh (fun z Hz => proj2 (Hbound z Hz))) as SU.
  pose proof (Zsum_lower zs Mm (fun z Hz => proj1 (Hbound z Hz))) as SL.
  rewrite (ivals_length vs zs Hzs), Hlen in SU, SL.
  change (Z.of_nat 16) with 16%Z in SU, SL.
  assert (HinH : In Hh zs).
  { destruct (ivals_member vs zs hi Hzs Hhi) as (z & Ez & Hz).
    assert (z = Hh) by congruence. now subst z. }
  assert (HinM : In Mm zs).
  { destruct (ivals_member vs zs lo Hzs Hlo) as (z & Ez & Hz).
    assert (z = Mm) by congruence. now subst z. }
  exists lob, (PrimFloat.div (PrimFloat.add lob hi) 2),
         (PrimFloat.div (PrimFloat.add lob lo) 2), hi, lo, zs, L, U, Lo, Hh, Mm.
  repeat match goal with |- _ /\ _ => split end;
    try assumption; try reflexivity; try lia.
Qed.

(** The lines of sixteen values computed without rounding, with the
    strict position of the average when the values are not all equal. *)
Lemma exact_lines_strict (vs : list float) (zs : list Z) (L H M : Z) :
  List.length vs = 16%nat ->
  map ival vs = map Some zs ->
  (forall z, In z zs -> (M <= z <= H)%Z) ->
  In H zs -> In M zs -> (16 * L = Zsum zs)%Z -> (M < H)%Z ->
  (M < L < H)%Z.
Proof.
  intros Hlen Hzs Hb HinH HinM E16 Hlt.
  pose proof (Zsum_upper_strict zs H M (fun z Hz => proj2 (Hb z Hz)) HinM Hlt) as SU.
  pose proof (Zsum_lower_strict zs M H (fun z Hz => proj1 (Hb z Hz)) HinH Hlt) as SL.
  rewrite (ivals_length vs zs Hzs), Hlen in SU, SL.
  change (Z.of_nat 16) with 16%Z in SU, SL. lia.
Qed.

(** ** The balance lines and the remarks *)

(** C1.  For every dataset of sixteen binary64 values the balance lines
    are computed, and from the values alone: LOB is the sum of the
    values, added from left to right, divided by 16; ULOB is
    (LOB + hi) / 2 and LLOB is (LOB + lo) / 2, every operation rounded to
    binary64, where hi and lo are what [max] and [min] return, values of
    the dataset that no value exceeds, resp. that exceed no value.  When
    none of these operations rounds, the lines stand for the arithmetic
    mean of the sixteen values, for (mean + greatest) / 2 and for
    (mean + least) / 2. *)
Theorem binary64_balance_lines (zone_data : Binary64.dataset) :
  List.length zone_data = 16%nat ->
  exists hi lo,
    let areas := Binary64.areas_of zone_data in
    let lob := PrimFloat.div (Binary64.py_sum areas) 16 in
    let ulob := PrimFloat.div (PrimFloat.add lob hi) 2 in
    let llob := PrimFloat.div (PrimFloat.add lob lo) 2 in
    Binary64.balance_lines areas = Ok (Binary64.mkLines lob ulob llob)
    /\ Binary64.py_max areas = Ok hi
    /\ In hi areas /\ (forall y, In y areas -> PrimFloat.ltb hi y = false)
    /\ Binary64.py_min areas = Ok lo
    /\ In lo areas /\ (forall y, In y areas -> PrimFloat.ltb y lo = false)
    /\ (exact_lines areas = true ->
        exists q qu ql qhi qlo qs,
          value lob = Some q /\ value ulob = Some qu /\ value llob = Some ql
          /\ value hi = Some qhi /\ value lo = Some qlo
          /\ map value areas = map Some qs
          /\ maximum_of qhi qs /\ minimum_of qlo qs
          /\ q == Qsum qs / 16
          /\ qu == (q + qhi) / 2
          /\ ql == (q + qlo) / 2).
Proof.
  intros Hlen. rewrite <- b64_areas_length in Hlen.
  destruct (b64_lines _ Hlen)
    as (hi & lo & Ehi & Elo & Ebl & Hhi & Hmax & Hlo & Hmin).
  exists hi, lo. cbn zeta.
  split; [exact Ebl |].
  split; [exact Ehi |]. split; [exact Hhi |]. split; [exact Hmax |].
  split; [exact Elo |]. split; [exact Hlo |]. split; [exact Hmin |].
  intros Hex.
  destruct (exact_lines_spec _ Hlen Hex)
    as (lob & u & l & hi' & lo' & zs & L & U & Lo & H & M
        & _ & _ & _ & Hzs & EL & EU & ELo & EH & EM & Hb & E16 & E2U & E2L
        & _ & HinH & HinM & -> & -> & -> & Ehi' & Elo').
  assert (hi' = hi) by congruence. assert (lo' = lo) by congruence.
  subst hi' lo'.
  exists (L # denominator), (U # denominator), (Lo # denominator),
         (H # denominator), (M # denominator),
         (map (fun z => z # denominator) zs).
  split; [now apply value_ival |].
  split; [now apply value_ival |].
  split; [now apply value_ival |].
  split; [now apply value_ival |].
  split; [now apply value_ival |].
  split; [now apply values_of_ivals |].
  split; [| split].
  - split; [apply in_map_iff; now exists H |].
    intros y Hy. apply in_map_iff in Hy. destruct Hy as (z & <- & Hz).
    unfold Qle. cbn [Qnum Qden]. apply Z.mul_le_mono_nonneg_r; [lia |].
    apply (Hb z Hz).
  - split; [apply in_map_iff; now exists M |].
    intros y Hy. apply in_map_iff in Hy. destruct Hy as (z & <- & Hz).
    unfold Qle. cbn [Qnum Qden]. apply Z.mul_le_mono_nonneg_r; [lia |].
    apply (Hb z Hz).
  - rewrite Qsum_same_denominator.
    split; [| split].
    + unfold Qeq, Qdiv, Qmult, Qinv. cbn [Qnum Qden]. lia.
    + rewrite same_denominator_plus.
      unfold Qeq, Qdiv, Qmult, Qinv. cbn [Qnum Qden]. nia.
    + rewrite same_denominator_plus.
      unfold Qeq, Qdiv, Qmult, Qinv. cbn [Qnum Qden]. nia.
Qed.

(** The areas 1 to 16 are computed without rounding. *)
Lemma binary64_balance_lines_witness :
  exact_lines (Binary64.areas_of (Binary64.zone_data_of whole_areas)) = true
  /\ exists hi lo,
       let areas := Binary64.areas_of (Binary64.zone_data_of whole_areas) in
       let lob := PrimFloat.div (Binary64.py_sum areas) 16 in
       let ulob := PrimFloat.div (PrimFloat.add lob hi) 2 in
       let llob := PrimFloat.div (PrimFloat.add lob lo) 2 in
       Binary64.balance_lines areas = Ok (Binary64.mkLines lob ulob llob)
       /\ Binary64.py_max areas = Ok hi
       /\ In hi areas /\ (forall y, In y areas -> PrimFloat.ltb hi y = false)
       /\ Binary64.py_min areas = Ok lo
       /\ In lo areas /\ (forall y, In y areas -> PrimFloat.ltb y lo = false)
       /\ (exact_lines areas = true ->
           exists q qu ql qhi qlo qs,
             value lob = Some q /\ value ulob = Some qu /\ value llob = Some ql
             /\ value hi = Some qhi /\ value lo = Some qlo
             /\ map value areas = map Some qs
             /\ maximum_of qhi qs /\ minimum_of qlo qs
             /\ q == Qsum qs / 16
             /\ qu == (q + qhi) / 2
             /\ ql == (q + qlo) / 2).
Proof.
  split; [vm_compute; reflexivity |].
  apply (binary64_balance_lines (Binary64.zone_data_of whole_areas)).
  reflexivity.
Defined.

(** Sixteen areas 0.3: the sum is rounded and LOB is
    0.29999999999999993, smaller than each of the sixteen equal values
    and than their mean.  Sixteen areas 1e308: the sum overflows and
    LOB is infinity. *)
Lemma average_is_not_the_mean :
  (exists bl,
     Binary64.balance_lines
       (Binary64.areas_of (Binary64.zone_data_of (repeat three_tenths 16))) = Ok bl
     /\ PrimFloat.ltb (Binary64.LOB bl) three_tenths = true
     /\ value (Binary64.LOB bl) = Some (number (Binary64.LOB bl))
     /\ map value (repeat three_tenths 16)
        = map Some (map number (repeat three_tenths 16))
     /\ number (Binary64.LOB bl)
        < Qsum (map number (repeat three_tenths 16)) / 16)
  /\ (exists bl,
        Binary64.balance_lines
          (Binary64.areas_of (Binary64.zone_data_of (repeat huge 16))) = Ok bl
        /\ Binary64.LOB bl = infinity
        /\ PrimFloat.ltb huge (Binary64.LOB bl) = true).
Proof.
  split; eexists; (split; [vm_compute; reflexivity |]).
  - split; [vm_compute; reflexivity |].
    split; [vm_compute; reflexivity |].
    split; vm_compute; reflexivity.
  - vm_compute; auto.
Qed.

(** C3.  For every dataset of sixteen binary64 values whose balance
    lines are computed without rounding, LLOB <= LOB <= ULOB. *)
Theorem unrounded_lines_ordered (zone_data : Binary64.dataset) :
  List.length zone_data = 16%nat ->
  exact_lines (Binary64.areas_of zone_data) = true ->
  exists lob u l,
    Binary64.balance_lines (Binary64.areas_of zone_data)
    = Ok (Binary64.mkLines lob u l)
    /\ PrimFloat.leb l lob = true
    /\ PrimFloat.leb lob u = true.
Proof.
  intros Hlen Hex. rewrite <- b64_areas_length in Hlen.
  destruct (exact_lines_spec _ Hlen Hex)
    as (lob & u & l & hi & lo & zs & L & U & Lo & H & M
        & Ebl & _ & _ & _ & EL & EU & ELo & _ & _ & _ & _ & E2U & E2L & Hord & _).
  exists lob, u, l. split; [exact Ebl |].
  rewrite (leb_ival _ _ _ _ ELo EL), (leb_ival _ _ _ _ EL EU).
  split; apply Z.leb_le; lia.
Qed.

Lemma unrounded_lines_ordered_witness :
  exists lob u l,
    Binary64.balance_lines (Binary64.areas_of (Binary64.zone_data_of whole_areas))
    = Ok (Binary64.mkLines lob u l)
    /\ PrimFloat.leb l lob = true
    /\ PrimFloat.leb lob u = true.
Proof.
  apply (unrounded_lines_ordered (Binary64.zone_data_of whole_areas));
    vm_compute; reflexivity.
Defined.

(** Sixteen areas 0.1: LOB is 0.10000000000000002 and ULOB is 0.1, so
    ULOB < LOB.  Sixteen areas 0.7: LOB is 0.69999999999999984 and LLOB
    is 0.7, so LOB < LLOB. *)
Lemma rounded_average_above_upper :
  (exists bl,
     Binary64.balance_lines
       (Binary64.areas_of (Binary64.zone_data_of (repeat one_tenth 16))) = Ok bl
     /\ PrimFloat.ltb (Binary64.ULOB bl) (Binary64.LOB bl) = true
     /\ PrimFloat.leb (Binary64.LOB bl) (Binary64.ULOB bl) = false)
  /\ (exists bl,
        Binary64.balance_lines
          (Binary64.areas_of (Binary64.zone_data_of (repeat seven_tenths 16))) = Ok bl
        /\ PrimFloat.ltb (Binary64.LOB bl) (Binary64.LLOB bl) = true
        /\ PrimFloat.leb (Binary64.LLOB bl) (Binary64.LOB bl) = false).
Proof.
  split; eexists; (split; [vm_compute; reflexivity |]); vm_compute; auto.
Qed.

(** C9.  When the sixteen values are equal to c and the balance lines
    are computed without rounding, LOB, ULOB and LLOB are equal to c and
    each of the sixteen zones is remarked "Balanced". *)
Theorem unrounded_equal_values (zone_data : Binary64.dataset) (c : float) :
  List.length zone_data = 16%nat ->
  (forall v, In v (Binary64.areas_of zone_data) -> PrimFloat.eqb v c = true) ->
  exact_lines (Binary64.areas_of zone_data) = true ->
  exists lob u l,
    Binary64.balance_lines (Binary64.areas_of zone_data)
    = Ok (Binary64.mkLines lob u l)
    /\ PrimFloat.eqb lob c = true
    /\ PrimFloat.eqb u c = true
    /\ PrimFloat.eqb l c = true
    /\ List.length (Binary64.remarks (Binary64.mkLines lob u l) zone_data) = 16%nat
    /\ Forall (fun zr => snd zr = "Balanced")
              (Binary64.remarks (Binary64.mkLines lob u l) zone_data).
Proof.
  intros Hlen Hc Hex. pose proof Hlen as Hlen0.
  rewrite <- b64_areas_length in Hlen.
  destruct (exact_lines_spec _ Hlen Hex)
    as (lob & u & l & hi & lo & zs & L & U & Lo & H & M
        & Ebl & Hhi & Hlo & Hzs & EL & EU & ELo & EH & EM & Hb & E16 & E2U & E2L & Hord & _).
  pose proof (eqb_same_ival _ _ _ EH (Hc hi Hhi)) as EcH.
  pose proof (eqb_same_ival _ _ _ EM (Hc lo Hlo)) as EcM.
  assert (HM : M = H) by congruence. subst M.
  exists lob, u, l. split; [exact Ebl |].
  rewrite (eqb_ival _ _ _ _ EL EcH), (eqb_ival _ _ _ _ EU EcH),
          (eqb_ival _ _ _ _ ELo EcH).
  split; [apply Z.eqb_eq; lia |].
  split; [apply Z.eqb_eq; lia |].
  split; [apply Z.eqb_eq; lia |].
  split; [unfold Binary64.remarks; now rewrite length_map |].
  unfold Binary64.remarks. apply Forall_map. apply Forall_forall.
  intros [z v] Hzv. cbn [snd].
  assert (Hv : In v (Binary64.areas_of zone_data)).
  { unfold Binary64.areas_of. apply in_map_iff. now exists (z, v). }
  destruct (ivals_member _ _ _ Hzs Hv) as (zv & Ev & Hin).
  pose proof (Hb zv Hin) as Bv.
  unfold Binary64.remark, Binary64.py_gt, Binary64.py_lt.
  cbn [Binary64.ULOB Binary64.LLOB].
  rewrite (ltb_ival _ _ _ _ EU Ev), (ltb_ival _ _ _ _ Ev ELo).
  replace (U <? zv)%Z with false by (symmetry; apply Z.ltb_ge; lia).
  replace (zv <? Lo)%Z with false by (symmetry; apply Z.ltb_ge; lia).
  reflexivity.
Qed.

Lemma unrounded_equal_values_witness :
  exists lob u l,
    Binary64.balance_lines (Binary64.areas_of (Binary64.zone_data_of hundreds))
    = Ok (Binary64.mkLines lob u l)
    /\ PrimFloat.eqb lob 100 = true
    /\ PrimFloat.eqb u 100 = true
    /\ PrimFloat.eqb l 100 = true
    /\ List.length (Binary64.remarks (Binary64.mkLines lob u l)
                                     (Binary64.zone_data_of hundreds)) = 16%nat
    /\ Forall (fun zr => snd zr = "Balanced")
              (Binary64.remarks (Binary64.mkLines lob u l)
                                (Binary64.zone_data_of hundreds)).
Proof.
  apply (unrounded_equal_values (Binary64.zone_data_of hundreds) 100%float).
  - reflexivity.
  - intros v Hv. change (In v (repeat 100%float 16)) in Hv.
    apply repeat_spec in Hv. subst v. reflexivity.
  - vm_compute. reflexivity.
Defined.

(** Sixteen areas 0.3: the three lines are 0.29999999999999993, none
    is equal to 0.3, and every zone is remarked "High".  Sixteen areas
    1e308: the three lines are infinity and every zone is remarked
    "Low". *)
Lemma equal_values_all_high :
  (exists bl,
     Binary64.balance_lines
       (Binary64.areas_of (Binary64.zone_data_of (repeat three_tenths 16))) = Ok bl
     /\ PrimFloat.eqb (Binary64.LOB bl) three_tenths = false
     /\ PrimFloat.eqb (Binary64.ULOB bl) three_tenths = false
     /\ PrimFloat.eqb (Binary64.LLOB bl) three_tenths = false
     /\ map snd (Binary64.remarks bl (Binary64.zone_data_of (repeat three_tenths 16)))
        = repeat "High" 16)
  /\ (exists bl,
        Binary64.balance_lines
          (Binary64.areas_of (Binary64.zone_data_of (repeat huge 16))) = Ok bl
        /\ PrimFloat.eqb (Binary64.LOB bl) huge = false
        /\ PrimFloat.eqb (Binary64.ULOB bl) huge = false
        /\ PrimFloat.eqb (Binary64.LLOB bl) huge = false
        /\ map snd (Binary64.remarks bl (Binary64.zone_data_of (repeat huge 16)))
           = repeat "Low" 16).
Proof.
  split; eexists; (split; [vm_compute; reflexivity |]); vm_compute; auto.
Qed.

(** C10.  When the balance lines of sixteen values are computed
    without rounding, a value that no value exceeds is not remarked
    "Low" and a value that exceeds no value is not remarked "High"; so
    the remarks are neither "Low" for all zones nor "High" for all
    zones. *)
Theorem unrounded_extremes (zone_data : Binary64.dataset) :
  List.length zone_data = 16%nat ->
  exact_lines (Binary64.areas_of zone_data) = true ->
  exists lob u l,
    Binary64.balance_lines (Binary64.areas_of zone_data)
    = Ok (Binary64.mkLines lob u l)
    /\ (forall v, In v (Binary64.areas_of zone_data) ->
          (forall y, In y (Binary64.areas_of zone_data) -> PrimFloat.leb y v = true) ->
          Binary64.remark (Binary64.mkLines lob u l) v <> "Low")
    /\ (forall v, In v (Binary64.areas_of zone_data) ->
          (forall y, In y (Binary64.areas_of zone_data) -> PrimFloat.leb v y = true) ->
          Binary64.remark (Binary64.mkLines lob u l) v <> "High")
    /\ ~ Forall (fun zr => snd zr = "Low")
                (Binary64.remarks (Binary64.mkLines lob u l) zone_data)
    /\ ~ Forall (fun zr => snd zr = "High")
                (Binary64.remarks (Binary64.mkLines lob u l) zone_data).
Proof.
  intros Hlen Hex. rewrite <- b64_areas_length in Hlen.
  destruct (exact_lines_spec _ Hlen Hex)
    as (lob & u & l & hi & lo & zs & L & U & Lo & H & M
        & Ebl & Hhi & Hlo & Hzs & EL & EU & ELo & EH & EM & Hb & E16 & E2U & E2L & Hord & _).
  exists lob, u, l. split; [exact Ebl |].
  set (bl := Binary64.mkLines lob u l).
  assert (Hmax : forall v, In v (Binary64.areas_of zone_data) ->
            (forall y, In y (Binary64.areas_of zone_data) -> PrimFloat.leb y v = true) ->
            Binary64.remark bl v <> "Low").
  { intros v Hv Hall.
    destruct (ivals_member _ _ _ Hzs Hv) as (zv & Ev & _).
    pose proof (Hall hi Hhi) as Hge. rewrite (leb_ival _ _ _ _ EH Ev) in Hge.
    apply Z.leb_le in Hge.
    unfold Binary64.remark, Binary64.py_gt, Binary64.py_lt, bl.
    cbn [Binary64.ULOB Binary64.LLOB].
    rewrite (ltb_ival _ _ _ _ EU Ev), (ltb_ival _ _ _ _ Ev ELo).
    replace (zv <? Lo)%Z with false by (symmetry; apply Z.ltb_ge; lia).
    destruct (U <? zv)%Z; discriminate. }
  assert (Hmin : forall v, In v (Binary64.areas_of zone_data) ->
            (forall y, In y (Binary64.areas_of zone_data) -> PrimFloat.leb v y = true) ->
            Binary64.remark bl v <> "High").
  { intros v Hv Hall.
    destruct (ivals_member _ _ _ Hzs Hv) as (zv & Ev & _).
    pose proof (Hall lo Hlo) as Hge. rewrite (leb_ival _ _ _ _ Ev EM) in Hge.
    apply Z.leb_le in Hge.
    unfold Binary64.remark, Binary64.py_gt, Binary64.py_lt, bl.
    cbn [Binary64.ULOB Binary64.LLOB].
    rewrite (ltb_ival _ _ _ _ EU Ev), (ltb_ival _ _ _ _ Ev ELo).
    replace (U <? zv)%Z with false by (symmetry; apply Z.ltb_ge; lia).
    destruct (zv <? Lo)%Z; discriminate. }
  assert (Hall_hi : forall y, In y (Binary64.areas_of zone_data) ->
            PrimFloat.leb y hi = true).
  { intros y Hy. destruct (ivals_member _ _ _ Hzs Hy) as (zy & Ey & Hin).
    rewrite (leb_ival _ _ _ _ Ey EH). apply Z.leb_le. apply (Hb zy Hin). }
  assert (Hall_lo : forall y, In y (Binary64.areas_of zone_data) ->
            PrimFloat.leb lo y = true).
  { intros y Hy. destruct (ivals_member _ _ _ Hzs Hy) as (zy & Ey & Hin).
    rewrite (leb_ival _ _ _ _ EM Ey). apply Z.leb_le. apply (Hb zy Hin). }
  split; [exact Hmax |]. split; [exact Hmin |].
  split.
  - intros Hall. destruct (b64_value_has_zone _ _ Hhi) as [z Hz].
    apply (b64_remark_recorded bl) in Hz.
    rewrite Forall_forall in Hall. apply Hall in Hz.
    exact (Hmax hi Hhi Hall_hi Hz).
  - intros Hall. destruct (b64_value_has_zone _ _ Hlo) as [z Hz].
    apply (b64_remark_recorded bl) in Hz.
    rewrite Forall_forall in Hall. apply Hall in Hz.
    exact (Hmin lo Hlo Hall_lo Hz).
Qed.

Lemma unrounded_extremes_witness :
  exists lob u l,
    Binary64.balance_lines (Binary64.areas_of (Binary64.zone_data_of whole_areas))
    = Ok (Binary64.mkLines lob u l)
    /\ Binary64.remark (Binary64.mkLines lob u l) 16%float <> "Low"
    /\ Binary64.remark (Binary64.mkLines lob u l) 1%float <> "High".
Proof.
  destruct (unrounded_extremes (Binary64.zone_data_of whole_areas))
    as (lob & u & l & Ebl & Hmax & Hmin & _).
  - reflexivity.
  - vm_compute. reflexivity.
  - exists lob, u, l. split; [exact Ebl |]. split.
    + apply Hmax.
      * change (In 16%float whole_areas). unfold whole_areas. cbn [In]. tauto.
      * intros y Hy. change (In y whole_areas) in Hy. unfold whole_areas in Hy.
        cbn [In] in Hy.
        repeat (destruct Hy as [<- | Hy]; [reflexivity |]). destruct Hy.
    + apply Hmin.
      * change (In 1%float whole_areas). unfold whole_areas. cbn [In]. tauto.
      * intros y Hy. change (In y whole_areas) in Hy. unfold whole_areas in Hy.
        cbn [In] in Hy.
        repeat (destruct Hy as [<- | Hy]; [reflexivity |]). destruct Hy.
Defined.

(** Sixteen areas 0.3: the least value, 0.3, is remarked "High", and so
    are all sixteen zones.  Sixteen areas 1e308: the greatest value is
    remarked "Low", and so are all sixteen zones. *)
Lemma all_zones_high_or_low :
  (exists bl,
     Binary64.balance_lines
       (Binary64.areas_of (Binary64.zone_data_of (repeat three_tenths 16))) = Ok bl
     /\ Binary64.py_min (repeat three_tenths 16) = Ok three_tenths
     /\ Binary64.remark bl three_tenths = "High"
     /\ forallb (fun zr => String.eqb (snd zr) "High")
                (Binary64.remarks bl (Binary64.zone_data_of (repeat three_tenths 16)))
        = true)
  /\ (exists bl,
        Binary64.balance_lines
          (Binary64.areas_of (Binary64.zone_data_of (repeat huge 16))) = Ok bl
        /\ Binary64.py_max (repeat huge 16) = Ok huge
        /\ Binary64.remark bl huge = "Low"
        /\ forallb (fun zr => String.eqb (snd zr) "Low")
                   (Binary64.remarks bl (Binary64.zone_data_of (repeat huge 16)))
           = true).
Proof.
  split; eexists; (split; [vm_compute; reflexivity |]); vm_compute; auto.
Qed.

(** ** Strengths, total and percentages *)

Lemma b64_strength_16 (v0 v1 v2 v3 v4 v5 v6 v7 v8 v9 v10 v11 v12 v13 v14 v15 : float) :
  Binary64.prakriti_strength
    (Binary64.zone_data_of [v0; v1; v2; v3; v4; v5; v6; v7; v8; v9; v10; v11; v12; v13; v14; v15])
  = Ok (b64_strengths
          (Binary64.py_sum [v4; v5; v6; v7; v8; v9])
          (Binary64.py_sum [v15; v0; v1; v2; v3])
          (Binary64.py_sum [v10; v11; v12; v13; v14])).
Proof. reflexivity. Qed.

Lemma sixteen_values (vs : list float) :
  List.length vs = 16%nat ->
  exists v0 v1 v2 v3 v4 v5 v6 v7 v8 v9 v10 v11 v12 v13 v14 v15,
    vs = [v0; v1; v2; v3; v4; v5; v6; v7; v8; v9; v10; v11; v12; v13; v14; v15].
Proof.
  intros H.
  do 16 (destruct vs as [| ? vs]; [discriminate H |]).
  destruct vs; [| discriminate H].
  repeat eexists.
Qed.

Lemma exact_strengths_16
  (v0 v1 v2 v3 v4 v5 v6 v7 v8 v9 v10 v11 v12 v13 v14 v15 : float) :
  exact_strengths
    (Binary64.zone_data_of [v0; v1; v2; v3; v4; v5; v6; v7; v8; v9; v10; v11; v12; v13; v14; v15])
  = (exact_sum 0%float [v4; v5; v6; v7; v8; v9]
     && (exact_sum 0%float [v15; v0; v1; v2; v3]
         && (exact_sum 0%float [v10; v11; v12; v13; v14] && true))
     && exact_sum 0%float
          [Binary64.py_sum [v4; v5; v6; v7; v8; v9];
           Binary64.py_sum [v15; v0; v1; v2; v3];
           Binary64.py_sum [v10; v11; v12; v13; v14]]).
Proof. reflexivity. Qed.

Ltac split_ivals H :=
  cbn [map] in H;
  repeat match type of H with
         | _ :: _ = map Some ?zs =>
             let z := fresh "z" in
             let E := fresh "E" in
             destruct zs as [| z zs]; [discriminate H |];
             cbn [map] in H; injection H as E H
         | [] = map Some ?zs => destruct zs; [clear H | discriminate H]
         end.

(** What it means that the three strengths and their total are
    computed without rounding. *)
Lemma exact_strengths_spec (vs : list float) :
  List.length vs = 16%nat ->
  exact_strengths (Binary64.zone_data_of vs) = true ->
  exists f w a zs F W A,
    Binary64.prakriti_strength (Binary64.zone_data_of vs)
    = Ok (b64_strengths f w a)
    /\ map ival vs = map Some zs
    /\ ival f = Some F /\ ival w = Some W /\ ival a = Some A
    /\ ival (Binary64.total_prakriti (b64_strengths f w a)) = Some (F + W + A)%Z
    /\ (F + W + A = Zsum zs)%Z.
Proof.
  intros Hlen Hex.
  destruct (sixteen_values vs Hlen)
    as (v0 & v1 & v2 & v3 & v4 & v5 & v6 & v7 & v8 & v9 & v10 & v11 & v12
        & v13 & v14 & v15 & ->).
  rewrite exact_strengths_16 in Hex.
  apply andb_true_iff in Hex. destruct Hex as [Hg Ht].
  apply andb_true_iff in Hg. destruct Hg as [Hf Hg].
  apply andb_true_iff in Hg. destruct Hg as [Hw Hg].
  apply andb_true_iff in Hg. destruct Hg as [Ha _].
  destruct (exact_sum_0_spec _ Hf) as (zf & Mf & Sf).
  destruct (exact_sum_0_spec _ Hw) as (zw & Mw & Sw).
  destruct (exact_sum_0_spec _ Ha) as (za & Ma & Sa).
  destruct (exact_sum_0_spec _ Ht) as (zt & Mt & St).
  split_ivals Mf. split_ivals Mw. split_ivals Ma. split_ivals Mt.
  repeat match goal with
         | E1 : ival ?x = Some ?p, E2 : ival ?x = Some (Zsum ?l) |- _ =>
             is_var p; assert (p = Zsum l) by congruence; subst p; clear E1
         end.
  rewrite b64_strength_16.
  do 3 eexists. eexists. do 3 eexists.
  split; [reflexivity |].
  split.
  { cbn [map].
    repeat match goal with
           | E : ival ?v = Some _ |- context [ival ?v] => rewrite E
           end.
    exact (eq_refl (map Some [_; _; _; _; _; _; _; _; _; _; _; _; _; _; _; _])). }
  split; [exact Sf |]. split; [exact Sw |]. split; [exact Sa |].
  split.
  - unfold Binary64.total_prakriti, b64_strengths. cbn [map snd].
    rewrite St. f_equal. unfold Zsum. cbn [fold_right]. lia.
  - unfold Zsum. cbn [fold_right]. lia.
Qed.

Lemma b64_strength_computed (vs : list float) :
  List.length vs = 16%nat ->
  exists f w a,
    Binary64.prakriti_strength (Binary64.zone_data_of vs)
    = Ok (b64_strengths f w a).
Proof.
  intros Hlen.
  destruct (sixteen_values vs Hlen)
    as (v0 & v1 & v2 & v3 & v4 & v5 & v6 & v7 & v8 & v9 & v10 & v11 & v12
        & v13 & v14 & v15 & ->).
  rewrite b64_strength_16. now do 3 eexists.
Qed.

Lemma b64_percentage_zero (f w a : float) :
  PrimFloat.eqb (Binary64.total_prakriti (b64_strengths f w a)) 0 = true ->
  Binary64.prakriti_percentage (b64_strengths f w a) = Raise ZeroDivisionError.
Proof.
  intros H. unfold Binary64.prakriti_percentage.
  set (t := Binary64.total_prakriti (b64_strengths f w a)) in *.
  unfold b64_strengths. cbn [mapM snd fst bind].
  unfold Binary64.py_truediv. rewrite H. reflexivity.
Qed.

Lemma b64_percentage_nonzero (f w a : float) :
  PrimFloat.eqb (Binary64.total_prakriti (b64_strengths f w a)) 0 = false ->
  Binary64.prakriti_percentage (b64_strengths f w a)
  = Ok (b64_strengths
          (PrimFloat.mul (PrimFloat.div f (Binary64.total_prakriti (b64_strengths f w a))) 100)
          (PrimFloat.mul (PrimFloat.div w (Binary64.total_prakriti (b64_strengths f w a))) 100)
          (PrimFloat.mul (PrimFloat.div a (Binary64.total_prakriti (b64_strengths f w a))) 100)).
Proof.
  intros H. unfold Binary64.prakriti_percentage.
  set (t := Binary64.total_prakriti (b64_strengths f w a)) in *.
  unfold b64_strengths. cbn [mapM snd fst bind].
  unfold Binary64.py_truediv. rewrite H. reflexivity.
Qed.

Lemma b64_analyse_steps (vs : list float) (s : list (string * float)) :
  List.length vs = 16%nat ->
  Binary64.prakriti_strength (Binary64.zone_data_of vs) = Ok s ->
  exists bl,
    Binary64.balance_lines (Binary64.areas_of (Binary64.zone_data_of vs)) = Ok bl
    /\ Binary64.analyse (Binary64.zone_data_of vs)
       = (pct <- Binary64.prakriti_percentage s ;;
          Ok (Binary64.mkFigures bl (Binary64.remarks bl (Binary64.zone_data_of vs))
                                 s pct)).
Proof.
  intros Hlen Hs.
  assert (Hl : List.length (Binary64.areas_of (Binary64.zone_data_of vs)) = 16%nat).
  { rewrite b64_areas_length. unfold Binary64.zone_data_of.
    rewrite length_combine, Hlen. reflexivity. }
  destruct (b64_lines _ Hl) as (hi & lo & _ & _ & Ebl & _).
  eexists. split; [exact Ebl |].
  unfold Binary64.analyse. rewrite Ebl. cbn [bind]. rewrite Hs. reflexivity.
Qed.

(** C6.  The zone lists of Fire, Water and Air are pairwise disjoint and
    their union is the set of the sixteen zones: no zone is in two
    groups, none is repeated, none is left out.  For every dataset of
    sixteen binary64 values the three strengths are computed; when the
    sums over the groups and the sum of the three strengths are not
    rounded, the strengths stand for numbers that add up to the sum of
    the sixteen values, and their binary64 total is equal to the
    binary64 sum of the values when that sum is not rounded either. *)
Theorem binary64_partition :
  map fst prakriti_map = ["Fire"; "Water"; "Air"]
  /\ List.length zones = 16%nat
  /\ NoDup (List.concat (map snd prakriti_map))
  /\ Permutation (List.concat (map snd prakriti_map)) zones
  /\ (forall z, In z zones <->
                exists p zl, In (p, zl) prakriti_map /\ In z zl)
  /\ (forall p1 l1 p2 l2 z,
        In (p1, l1) prakriti_map -> In (p2, l2) prakriti_map ->
        In z l1 -> In z l2 -> p1 = p2)
  /\ (forall vs, List.length vs = 16%nat ->
        exists f w a,
          Binary64.prakriti_strength (Binary64.zone_data_of vs)
          = Ok (b64_strengths f w a)
          /\ (exact_strengths (Binary64.zone_data_of vs) = true ->
              exists qf qw qa qs,
                value f = Some qf /\ value w = Some qw /\ value a = Some qa
                /\ map value vs = map Some qs
                /\ qf + qw + qa == Qsum qs)
          /\ (exact_strengths (Binary64.zone_data_of vs) = true ->
              exact_sum 0%float vs = true ->
              PrimFloat.eqb (Binary64.total_prakriti (b64_strengths f w a))
                            (Binary64.py_sum vs) = true)).
Proof.
  split; [reflexivity |].
  split; [reflexivity |].
  split; [exact group_zones_NoDup |].
  split; [| split; [| split]].
  - apply NoDup_Permutation;
      [exact group_zones_NoDup | exact zones_NoDup | exact group_zones_are_zones].
  - intros z. rewrite <- group_zones_are_zones, in_concat. split.
    + intros (zl & Hzl & Hz). apply in_map_iff in Hzl.
      destruct Hzl as ([p zl'] & E & Hp). simpl in E. subst zl'.
      now exists p, zl.
    + intros (p & zl & Hp & Hz). exists zl. split; [| exact Hz].
      apply in_map_iff. now exists (p, zl).
  - intros p1 l1 p2 l2 z H1 H2 Hz1 Hz2.
    pose proof group_zones_NoDup as ND.
    cbn in H1, H2.
    destruct H1 as [H1 | [H1 | [H1 | []]]];
      destruct H2 as [H2 | [H2 | [H2 | []]]];
      injection H1 as <- <-; injection H2 as <- <-;
      try reflexivity; exfalso;
      cbn in Hz1, Hz2;
      repeat (destruct Hz1 as [Hz1 | Hz1]; [subst z |]); try contradiction;
      repeat (destruct Hz2 as [Hz2 | Hz2]; [discriminate Hz2 |]); contradiction.
  - intros vs Hlen.
    destruct (b64_strength_computed vs Hlen) as (f & w & a & Hs).
    exists f, w, a. split; [exact Hs |]. split.
    + intros Hex.
      destruct (exact_strengths_spec vs Hlen Hex)
        as (f' & w' & a' & zs & F & W & A & Hs' & Hzs & EF & EW & EA & _ & Hsum).
      rewrite Hs in Hs'. injection Hs' as <- <- <-.
      exists (F # denominator), (W # denominator), (A # denominator),
             (map (fun z => z # denominator) zs).
      split; [now apply value_ival |].
      split; [now apply value_ival |].
      split; [now apply value_ival |].
      split; [now apply values_of_ivals |].
      rewrite Qsum_same_denominator, Qsum3_same_denominator, Hsum. reflexivity.
    + intros Hex Hvs.
      destruct (exact_strengths_spec vs Hlen Hex)
        as (f' & w' & a' & zs & F & W & A & Hs' & Hzs & _ & _ & _ & ET & Hsum).
      rewrite Hs in Hs'. injection Hs' as <- <- <-.
      destruct (exact_sum_0_spec vs Hvs) as (zs' & Hzs' & ES).
      rewrite (ivals_fixed _ _ _ Hzs' Hzs) in ES.
      rewrite (eqb_ival _ _ _ _ ET ES). apply Z.eqb_eq. exact Hsum.
Qed.

Lemma binary64_partition_witness :
  exists f w a,
    Binary64.prakriti_strength (Binary64.zone_data_of whole_areas)
    = Ok (b64_strengths f w a)
    /\ (exists qf qw qa qs,
          value f = Some qf /\ value w = Some qw /\ value a = Some qa
          /\ map value whole_areas = map Some qs
          /\ qf + qw + qa == Qsum qs)
    /\ PrimFloat.eqb (Binary64.total_prakriti (b64_strengths f w a))
                     (Binary64.py_sum whole_areas) = true.
Proof.
  destruct (proj2 (proj2 (proj2 (proj2 (proj2 (proj2 binary64_partition)))))
              whole_areas eq_refl)
    as (f & w & a & Hs & Hv & He).
  exists f, w, a. split; [exact Hs |]. split.
  - apply Hv. vm_compute. reflexivity.
  - apply He; vm_compute; reflexivity.
Defined.

(** Sixteen areas 0.1: the total of the strengths is 1.6 and the sum
    of the values is 1.6000000000000003; the numbers the three strengths
    stand for add up to less than the sixteen values do.  The areas
    N = -1e308,
    E = ESE = 1e308: the strength of Fire overflows, the total is
    infinity, and the sum of the values is 1e308. *)
Lemma strengths_sum_differs :
  (exists f w a,
     Binary64.prakriti_strength (Binary64.zone_data_of (repeat one_tenth 16))
     = Ok (b64_strengths f w a)
     /\ PrimFloat.ltb (Binary64.total_prakriti (b64_strengths f w a))
                      (Binary64.py_sum (repeat one_tenth 16)) = true
     /\ value f = Some (number f) /\ value w = Some (number w)
     /\ value a = Some (number a)
     /\ map value (repeat one_tenth 16) = map Some (map number (repeat one_tenth 16))
     /\ number f + number w + number a < Qsum (map number (repeat one_tenth 16)))
  /\ (exists s,
        Binary64.prakriti_strength (Binary64.zone_data_of overflowing_areas) = Ok s
        /\ Binary64.total_prakriti s = infinity
        /\ Binary64.py_sum overflowing_areas = huge
        /\ PrimFloat.eqb (Binary64.total_prakriti s)
                         (Binary64.py_sum overflowing_areas) = false).
Proof.
  split.
  - do 3 eexists. split; [vm_compute; reflexivity |].
    split; [vm_compute; reflexivity |].
    split; [vm_compute; reflexivity |].
    split; [vm_compute; reflexivity |].
    split; [vm_compute; reflexivity |].
    split; vm_compute; reflexivity.
  - eexists. split; [vm_compute; reflexivity |]. vm_compute; auto.
Qed.




(** C5.  For every dataset of sixteen binary64 values the three
    strengths are computed.  When their binary64 total is zero -- as it
    is when all sixteen values are zero, and, for sums that are not
    rounded, with values that are not negative only then -- the
    percentage computation raises ZeroDivisionError, and so does the
    script.  When the total is not zero, the percentage of each group is
    (strength / total) * 100 in binary64, which stands for
    100 * strength / total when the division and the multiplication are
    not rounded. *)
Theorem binary64_percentage_division (vs : list float) :
  List.length vs = 16%nat ->
  exists f w a,
    Binary64.prakriti_strength (Binary64.zone_data_of vs)
    = Ok (b64_strengths f w a)
    /\ (PrimFloat.eqb (Binary64.total_prakriti (b64_strengths f w a)) 0 = true ->
        Binary64.prakriti_percentage (b64_strengths f w a)
        = Raise ZeroDivisionError
        /\ Binary64.analyse (Binary64.zone_data_of vs) = Raise ZeroDivisionError)
    /\ ((forall v, In v vs -> PrimFloat.eqb v 0 = true) ->
        PrimFloat.eqb (Binary64.total_prakriti (b64_strengths f w a)) 0 = true)
    /\ (exact_strengths (Binary64.zone_data_of vs) = true ->
        (forall v, In v vs -> PrimFloat.leb 0 v = true) ->
        PrimFloat.eqb (Binary64.total_prakriti (b64_strengths f w a)) 0 = true ->
        forall v, In v vs -> PrimFloat.eqb v 0 = true)
    /\ (PrimFloat.eqb (Binary64.total_prakriti (b64_strengths f w a)) 0 = false ->
        Binary64.prakriti_percentage (b64_strengths f w a)
        = (let t := Binary64.total_prakriti (b64_strengths f w a) in
           Ok (b64_strengths (PrimFloat.mul (PrimFloat.div f t) 100)
                             (PrimFloat.mul (PrimFloat.div w t) 100)
                             (PrimFloat.mul (PrimFloat.div a t) 100))))
    /\ (exact_percentages (Binary64.zone_data_of vs) = true ->
        exists pf pw pa qf qw qa qt qpf qpw qpa,
          Binary64.prakriti_percentage (b64_strengths f w a)
          = Ok (b64_strengths pf pw pa)
          /\ value f = Some qf /\ value w = Some qw /\ value a = Some qa
          /\ value (Binary64.total_prakriti (b64_strengths f w a)) = Some qt
          /\ value pf = Some qpf /\ value pw = Some qpw /\ value pa = Some qpa
          /\ ~ qt == 0
          /\ qpf == 100 * qf / qt
          /\ qpw == 100 * qw / qt
          /\ qpa == 100 * qa / qt).
Proof.
  intros Hlen.
  destruct (b64_strength_computed vs Hlen) as (f & w & a & Hs).
  destruct (b64_analyse_steps vs _ Hlen Hs) as (bl & _ & Hrun).
  exists f, w, a. split; [exact Hs |].
  set (t := Binary64.total_prakriti (b64_strengths f w a)) in *.
  split; [| split; [| split; [| split]]].
  - intros H0. pose proof (b64_percentage_zero f w a H0) as Hp.
    split; [exact Hp |]. rewrite Hrun, Hp. reflexivity.
  - intros Hall.
    destruct (sixteen_values vs Hlen)
      as (v0 & v1 & v2 & v3 & v4 & v5 & v6 & v7 & v8 & v9 & v10 & v11 & v12
          & v13 & v14 & v15 & ->).
    rewrite b64_strength_16 in Hs. injection Hs as <- <- <-.
    assert (Hz : forall l, (forall v, In v l ->
                  In v [v0; v1; v2; v3; v4; v5; v6; v7; v8; v9; v10; v11; v12; v13; v14; v15]) ->
                ival (Binary64.py_sum l) = Some 0%Z).
    { intros l Hl. apply sum_of_zeros; [exact ival_0 |].
      intros v Hv. apply eqb_zero_ival. apply Hall. now apply Hl. }
    apply eqb_zero_ival. unfold t, Binary64.total_prakriti, b64_strengths.
    cbn [map snd]. apply sum_of_zeros; [exact ival_0 |].
    intros v [<- | [<- | [<- | []]]]; apply Hz; intros x Hx;
      cbn [In] in Hx |- *; tauto.
  - intros Hex Hpos H0 v Hv.
    destruct (exact_strengths_spec vs Hlen Hex)
      as (f' & w' & a' & zs & F & W & A & Hs' & Hzs & _ & _ & _ & ET & Hsum).
    rewrite Hs in Hs'. injection Hs' as <- <- <-. fold t in ET.
    apply eqb_zero_ival in H0.
    assert (HT : (F + W + A)%Z = 0%Z) by congruence.
    destruct (ivals_member _ _ _ Hzs Hv) as (z & Ez & Hz).
    apply eqb_zero_ival. rewrite Ez. f_equal.
    apply (Zsum_zero_all_zero zs); [| lia | exact Hz].
    intros z' Hz'. destruct (ivals_source _ _ _ Hzs Hz') as (y & Ey & Hy).
    pose proof (Hpos y Hy) as Hle.
    rewrite (leb_ival _ _ _ _ ival_0 Ey) in Hle. now apply Z.leb_le.
  - intros Hne. exact (b64_percentage_nonzero f w a Hne).
  - intros Hpc.
    unfold exact_percentages in Hpc. rewrite Hs in Hpc.
    unfold b64_strengths in Hpc. cbn [forallb snd] in Hpc.
    fold (b64_strengths f w a) in Hpc. fold t in Hpc.
    apply andb_true_iff in Hpc. destruct Hpc as [Hf Hpc].
    apply andb_true_iff in Hpc. destruct Hpc as [Hw Hpc].
    apply andb_true_iff in Hpc. destruct Hpc as [Ha _].
    apply andb_true_iff in Hf. destruct Hf as [Hfd Hfm].
    apply andb_true_iff in Hw. destruct Hw as [Hwd Hwm].
    apply andb_true_iff in Ha. destruct Ha as [Had Ham].
    destruct (exact_div_spec _ _ Hfd) as (F & T & DF & EF & ET & EDF & HT & HF).
    destruct (exact_div_spec _ _ Hwd) as (W & T2 & DW & EW & ET2 & EDW & _ & HW).
    destruct (exact_div_spec _ _ Had) as (A & T3 & DA & EA & ET3 & EDA & _ & HA).
    destruct (exact_mul_spec _ _ Hfm) as (DF' & C1 & PF & EDF' & EC1 & EPF & HPF).
    destruct (exact_mul_spec _ _ Hwm) as (DW' & C2 & PW & EDW' & EC2 & EPW & HPW).
    destruct (exact_mul_spec _ _ Ham) as (DA' & C3 & PA & EDA' & EC3 & EPA & HPA).
    assert (T2 = T) by congruence. assert (T3 = T) by congruence.
    assert (DF' = DF) by congruence. assert (DW' = DW) by congruence.
    assert (DA' = DA) by congruence.
    assert (C1 = (100 * scale)%Z) by (pose proof ival_100; congruence).
    assert (C2 = (100 * scale)%Z) by (pose proof ival_100; congruence).
    assert (C3 = (100 * scale)%Z) by (pose proof ival_100; congruence).
    subst.
    assert (Hne : PrimFloat.eqb t 0 = false).
    { destruct (PrimFloat.eqb t 0) eqn:E; [| reflexivity].
      apply eqb_zero_ival in E. congruence. }
    rewrite (b64_percentage_nonzero f w a Hne). fold t.
    do 3 eexists.
    exists (F # denominator), (W # denominator), (A # denominator),
           (T # denominator),
           (PF # denominator), (PW # denominator), (PA # denominator).
    split; [reflexivity |].
    split; [now apply value_ival |].
    split; [now apply value_ival |].
    split; [now apply value_ival |].
    split; [now apply value_ival |].
    split; [now apply value_ival |].
    split; [now apply value_ival |].
    split; [now apply value_ival |].
    assert (Hq : ~ (T # denominator) == 0).
    { unfold Qeq. cbn [Qnum Qden]. lia. }
    split; [exact Hq |].
    pose proof scale_pos as Hsc.
    assert (E1 : PF = (100 * DF)%Z) by (apply (Z.mul_reg_r _ _ scale); lia).
    assert (E2 : PW = (100 * DW)%Z) by (apply (Z.mul_reg_r _ _ scale); lia).
    assert (E3 : PA = (100 * DA)%Z) by (apply (Z.mul_reg_r _ _ scale); lia).
    subst PF PW PA.
    assert (Hshape : forall D X : Z, (D * T = X * scale)%Z ->
              (100 * D # denominator) == 100 * (X # denominator) / (T # denominator)).
    { intros D X HD.
      assert (Hm : (100 * D # denominator) * (T # denominator)
                   == 100 * (X # denominator)).
      { unfold Qeq, Qmult. cbn [Qnum Qden].
        rewrite !Pos2Z.inj_mul, Zpos_denominator. nia. }
      rewrite <- Hm. field. exact Hq. }
    split; [now apply Hshape |]. split; now apply Hshape.
Qed.

Lemma binary64_percentage_division_witness :
  Binary64.analyse (Binary64.zone_data_of zeros) = Raise ZeroDivisionError
  /\ exists f w a,
       Binary64.prakriti_strength (Binary64.zone_data_of hundreds)
       = Ok (b64_strengths f w a)
       /\ Binary64.prakriti_percentage (b64_strengths f w a)
          = (let t := Binary64.total_prakriti (b64_strengths f w a) in
             Ok (b64_strengths (PrimFloat.mul (PrimFloat.div f t) 100)
                               (PrimFloat.mul (PrimFloat.div w t) 100)
                               (PrimFloat.mul (PrimFloat.div a t) 100))).
Proof.
  split.
  - destruct (binary64_percentage_division zeros eq_refl)
      as (f & w & a & _ & Hz & Hall & _).
    apply Hz. apply Hall. intros v Hv. apply repeat_spec in Hv. subst v.
    reflexivity.
  - destruct (binary64_percentage_division hundreds eq_refl)
      as (f & w & a & Hs & _ & _ & _ & Hnz & _).
    exists f, w, a. split; [exact Hs |]. apply Hnz.
    revert Hs. vm_compute. intros Hs. injection Hs as <- <- <-. reflexivity.
Defined.

(** Sixteen areas 1e308: the total is not zero and the percentages are
    not-a-number.  The areas N = 1e16, NNE = 1, NE = -1e16: not all
    values are zero, yet the strength of Water is rounded to 0, the
    total is zero and the script raises ZeroDivisionError. *)
Lemma percentages_of_overflow_and_cancellation :
  (exists s,
     Binary64.prakriti_strength (Binary64.zone_data_of (repeat huge 16)) = Ok s
     /\ PrimFloat.eqb (Binary64.total_prakriti s) 0 = false
     /\ Binary64.prakriti_percentage s = Ok (b64_strengths nan nan nan))
  /\ (existsb (fun v => negb (PrimFloat.eqb v 0)) cancelling_areas = true
      /\ Binary64.prakriti_strength (Binary64.zone_data_of cancelling_areas)
         = Ok (b64_strengths 0 0 0)
      /\ Binary64.analyse (Binary64.zone_data_of cancelling_areas)
         = Raise ZeroDivisionError).
Proof.
  split.
  - eexists. split; [vm_compute; reflexivity |].
    split; vm_compute; reflexivity.
  - split; [vm_compute; reflexivity |]. split; vm_compute; reflexivity.
Qed.

(** ** Two runs *)

(** All zones at 100: the lines are 100, every zone is "Balanced"; Fire
    has six zones, Water and Air five each. *)
Example binary64_run_all_100 :
  Binary64.analyse (Binary64.zone_data_of hundreds)
  = Ok (Binary64.mkFigures
          (Binary64.mkLines 100 100 100)
          (map (fun z => (z, "Balanced")) zones)
          (b64_strengths 600 500 500)
          (b64_strengths 37.5 31.25 31.25)).
Proof. vm_compute. reflexivity. Qed.

(** The areas 1 to 16: LOB 8.5, ULOB 12.25, LLOB 4.75. *)
Example binary64_run_whole_areas :
  exists pct,
    Binary64.analyse (Binary64.zone_data_of whole_areas)
    = Ok (Binary64.mkFigures
            (Binary64.mkLines 8.5 12.25 4.75)
            [ ("N", "Low"); ("NNE", "Low"); ("NE", "Low"); ("ENE", "Low");
              ("E", "Balanced"); ("ESE", "Balanced"); ("SE", "Balanced");
              ("SSE", "Balanced"); ("S", "Balanced"); ("SSW", "Balanced");
              ("SW", "Balanced"); ("WSW", "Balanced");
              ("W", "High"); ("WNW", "High"); ("NW", "High"); ("NNW", "High") ]
            (b64_strengths 45 26 65)
            pct).
Proof. eexists. vm_compute. reflexivity. Qed.

(** * Further properties of the script *)

(** ** The loaders *)

Lemma load_manual_keys (zs : list string) (console : list (option pyfloat))
  (d : dataset) :
  load_manual zs console = Ok d -> map fst d = zs.
Proof.
  revert console d. induction zs as [| z zs IH]; intros console d H.
  - injection H as <-. reflexivity.
  - cbn [load_manual] in H.
    destruct console as [| [v |] console]; try discriminate H.
    destruct (load_manual zs console) as [d' |] eqn:E; try discriminate H.
    cbn [bind] in H. injection H as <-.
    cbn [map fst]. f_equal. now apply (IH console).
Qed.

Lemma reindex_keys (df : sheet) (labels : list string) (d : dataset) :
  reindex df labels = Ok d -> map fst d = labels.
Proof.
  unfold reindex. destruct (has_duplicates (map fst df)); [discriminate |].
  intros H. injection H as <-. rewrite map_map. cbn [fst]. apply map_id.
Qed.

Lemma choice_cases (choice : string) :
  (choice = "1" /\ String.eqb choice "1" = true)
  \/ (choice = "2" /\ String.eqb choice "1" = false
      /\ String.eqb choice "2" = true)
  \/ (choice <> "1" /\ choice <> "2" /\ String.eqb choice "1" = false
      /\ String.eqb choice "2" = false).
Proof.
  destruct (String.eqb choice "1") eqn:E1.
  - left. apply String.eqb_eq in E1. now split.
  - destruct (String.eqb choice "2") eqn:E2.
    + right; left. apply String.eqb_eq in E2. now repeat split.
    + right; right. apply String.eqb_neq in E1, E2. now repeat split.
Qed.

Lemma load_keys (choice : string) (console : list (option pyfloat))
  (file : option sheet) (d : dataset) :
  load choice console file = Ok d -> map fst d = zones.
Proof.
  unfold load.
  destruct (choice_cases choice)
    as [[_ E1] | [(_ & E1 & E2) | (_ & _ & E1 & E2)]]; rewrite E1, ?E2.
  - apply load_manual_keys.
  - destruct file as [df |]; [apply reindex_keys | discriminate].
  - discriminate.
Qed.

Lemma key_is_found (d : dataset) (z : string) :
  In z (map fst d) -> exists v, getitem d z = Ok v /\ In (z, v) d.
Proof.
  unfold getitem. induction d as [| [k v] d IH]; intros H; [destruct H |].
  cbn [assoc]. destruct (String.eqb z k) eqn:E.
  - apply String.eqb_eq in E. subst k. exists v. split; [reflexivity | now left].
  - destruct H as [H | H].
    + cbn in H. subst k. rewrite String.eqb_refl in E. discriminate E.
    + destruct (IH H) as (v' & Hv & Hin). exists v'. split; [exact Hv | now right].
Qed.

(** X1. Whatever the loader returns has the sixteen zones as its keys,
    in the order of [zones]: the selector was "1" or "2", the dataset has
    sixteen items, and [zone_data[z]] is there for every zone. *)
Theorem loaded_dataset_keys (choice : string) (console : list (option pyfloat))
  (file : option sheet) (d : dataset) :
  load choice console file = Ok d ->
  map fst d = zones
  /\ List.length d = 16%nat
  /\ (choice = "1" \/ choice = "2")
  /\ (forall z, In z zones -> exists v, getitem d z = Ok v /\ In (z, v) d).
Proof.
  intros H. pose proof (load_keys _ _ _ _ H) as K.
  split; [exact K |].
  split; [now rewrite <- (length_map fst d), K |].
  split.
  - unfold load in H.
    destruct (choice_cases choice)
      as [[C _] | [(C & _) | (_ & _ & E1 & E2)]]; auto.
    rewrite E1, E2 in H. discriminate H.
  - intros z Hz. apply key_is_found. now rewrite K.
Qed.

Lemma loaded_dataset_keys_witness :
  map fst (numeric_data sample_areas) = zones
  /\ List.length (numeric_data sample_areas) = 16%nat
  /\ ("1" = "1" \/ "1" = "2")
  /\ (forall z, In z zones ->
        exists v, getitem (numeric_data sample_areas) z = Ok v
                  /\ In (z, v) (numeric_data sample_areas)).
Proof.
  apply (loaded_dataset_keys "1" (map (fun q => Some (Num q)) sample_areas) None).
  reflexivity.
Defined.

Lemma load_manual_accepts (zs : list string) (vs : list pyfloat)
  (rest : list (option pyfloat)) :
  List.length vs = List.length zs ->
  load_manual zs (map Some vs ++ rest)%list = Ok (combine zs vs).
Proof.
  revert vs. induction zs as [| z zs IH]; intros vs H.
  - reflexivity.
  - destruct vs as [| v vs]; [discriminate H |].
    cbn [map app load_manual]. rewrite IH; [reflexivity |].
    now injection H.
Qed.

Lemma load_manual_rejects (zs : list string) (vs : list pyfloat)
  (rest : list (option pyfloat)) :
  (List.length vs < List.length zs)%nat ->
  load_manual zs (map Some vs ++ None :: rest)%list = Raise ValueError.
Proof.
  revert vs. induction zs as [| z zs IH]; intros vs H.
  - inversion H.
  - destruct vs as [| v vs]; [reflexivity |].
    cbn [map app load_manual]. rewrite IH; [reflexivity |].
    cbn [List.length] in H. lia.
Qed.

Lemma load_manual_runs_out (zs : list string) (vs : list pyfloat) :
  (List.length vs < List.length zs)%nat ->
  load_manual zs (map Some vs) = Raise EOFError.
Proof.
  revert vs. induction zs as [| z zs IH]; intros vs H.
  - inversion H.
  - destruct vs as [| v vs]; [reflexivity |].
    cbn [map load_manual]. rewrite IH; [reflexivity |].
    cbn [List.length] in H. lia.
Qed.

(** X2. Manual entry reads the first sixteen console lines and no more.
    If [float] accepts all of them, the dataset pairs the zones, in
    order, with the sixteen values, whatever follows on the console.  If
    a line among the first sixteen is rejected, the ones before it being
    accepted, ValueError is raised; if the console ends before sixteen
    accepted lines, EOFError is. *)
Theorem manual_entry (file : option sheet) :
  (forall vs rest, List.length vs = 16%nat ->
     load "1" (map Some vs ++ rest)%list file = Ok (combine zones vs))
  /\ (forall vs rest, (List.length vs < 16)%nat ->
        load "1" (map Some vs ++ None :: rest)%list file = Raise ValueError)
  /\ (forall vs, (List.length vs < 16)%nat ->
        load "1" (map Some vs) file = Raise EOFError).
Proof.
  split; [| split].
  - intros vs rest H. now apply load_manual_accepts.
  - intros vs rest H. now apply load_manual_rejects.
  - intros vs H. now apply load_manual_runs_out.
Qed.

Lemma NoDup_has_duplicates (l : list string) :
  NoDup l -> has_duplicates l = false.
Proof.
  induction 1 as [| x t Hx _ IH]; [reflexivity |].
  cbn [has_duplicates]. rewrite IH, orb_false_r.
  destruct (existsb (String.eqb x) t) eqn:E; [| reflexivity].
  apply existsb_exists in E. destruct E as (y & Hy & Exy).
  apply String.eqb_eq in Exy. subst y. contradiction.
Qed.

Lemma assoc_unique_row {V : Type} (df : list (string * V)) (z : string) (v : V) :
  NoDup (map fst df) -> In (z, v) df -> assoc z df = Some v.
Proof.
  induction df as [| [k w] df IH]; intros ND H; [destruct H |].
  cbn [map fst] in ND. apply NoDup_cons_iff in ND. destruct ND as [Hk ND].
  cbn [assoc]. destruct H as [H | H].
  - injection H as -> ->. now rewrite String.eqb_refl.
  - destruct (String.eqb z k) eqn:E; [| now apply IH].
    apply String.eqb_eq in E. subst k. exfalso. apply Hk.
    apply in_map_iff. now exists (z, v).
Qed.

Lemma reindex_rows (df : sheet) (zs : list string) (vs : list pyfloat) :
  List.length vs = List.length zs ->
  (forall z v, In (z, v) (combine zs vs) -> cell df z = v) ->
  map (fun z => (z, cell df z)) zs = combine zs vs.
Proof.
  revert vs. induction zs as [| z zs IH]; intros vs Hlen H; [reflexivity |].
  destruct vs as [| v vs]; [discriminate Hlen |].
  cbn [map combine]. f_equal.
  - f_equal. apply H. now left.
  - apply IH; [now injection Hlen |].
    intros z' v' Hin. apply H. now right.
Qed.

(** X3. Excel entry puts the rows in the order of [zones] and drops the
    rows of other labels: a sheet that holds, in any order, one row for
    each of the sixteen zones and further rows with labels that are not
    zones, no label twice, loads as the dataset of the sixteen zone
    rows in canonical order. *)
Theorem excel_rows_reordered (df extra : sheet) (vs : list pyfloat)
  (console : list (option pyfloat)) :
  List.length vs = 16%nat ->
  NoDup (map fst extra) ->
  (forall r, In r extra -> ~ In (fst r) zones) ->
  Permutation df (combine zones vs ++ extra)%list ->
  load "2" console (Some df) = Ok (combine zones vs).
Proof.
  intros Hlen NDx Hx Hperm.
  assert (Hkeys : map fst (combine zones vs) = zones).
  { do 17 (destruct vs as [| ? vs]; try discriminate Hlen). reflexivity. }
  assert (ND : NoDup (map fst df)).
  { apply (Permutation_NoDup
             (l := map fst (combine zones vs ++ extra)%list)).
    - apply Permutation_map. now symmetry.
    - rewrite map_app, Hkeys. apply NoDup_app; repeat split.
      + exact zones_NoDup.
      + exact NDx.
      + intros z Hz Hin. apply in_map_iff in Hin.
        destruct Hin as (r & <- & Hr). exact (Hx r Hr Hz). }
  unfold load. cbn [String.eqb Ascii.eqb Bool.eqb load_excel].
  unfold reindex. rewrite (NoDup_has_duplicates _ ND). f_equal.
  apply reindex_rows; [exact Hlen |].
  intros z v Hin. unfold cell.
  rewrite (assoc_unique_row df z v ND); [reflexivity |].
  apply (Permutation_in (l := (combine zones vs ++ extra)%list));
    [now symmetry |].
  apply in_or_app. now left.
Qed.

Lemma excel_rows_reordered_witness :
  load "2" []
       (Some (("Plot", Num 7) :: rev (combine zones (map Num sample_areas))))
  = Ok (combine zones (map Num sample_areas)).
Proof.
  apply (excel_rows_reordered _ [("Plot", Num 7)] (map Num sample_areas) []).
  - reflexivity.
  - repeat constructor. intros [].
  - intros r [<- | []]. cbn. intuition discriminate.
  - change (("Plot", Num 7) :: rev (combine zones (map Num sample_areas)))
      with ([("Plot", Num 7)] ++ rev (combine zones (map Num sample_areas)))%list.
    rewrite Permutation_app_comm. apply Permutation_app_tail.
    symmetry. apply Permutation_rev.
Defined.

(** ** The balance lines *)

Lemma py_len_nonzero {A : Type} (x : A) (l : list A) :
  exists n, py_len (x :: l) = Num n /\ Qeq_bool n 0 = false.
Proof.
  unfold py_len. eexists. split; [reflexivity |].
  cbn [List.length]. rewrite Nat2Z.inj_succ.
  apply Qeq_bool_false_iff. intros H.
  unfold Qeq, inject_Z in H. cbn in H. lia.
Qed.

Lemma py_truediv_nonzero (a : pyfloat) (n : Q) :
  Qeq_bool n 0 = false -> exists r, py_truediv a (Num n) = Ok r.
Proof.
  intros H. unfold py_truediv. rewrite H. destruct a; eexists; reflexivity.
Qed.

Lemma balance_lines_nonempty (v : pyfloat) (vs : list pyfloat) :
  exists bl, balance_lines (v :: vs) = Ok bl.
Proof.
  unfold balance_lines.
  destruct (py_len_nonzero v vs) as (n & -> & Hn).
  destruct (py_truediv_nonzero (py_sum (v :: vs)) n Hn) as [lob ->].
  cbn [py_max py_min bind].
  destruct (py_truediv_nonzero
              (py_add lob (fold_left (fun m y => if py_gt y m then y else m) vs v))
              2 eq_refl) as [ulob ->].
  destruct (py_truediv_nonzero
              (py_add lob (fold_left (fun m y => if py_lt y m then y else m) vs v))
              2 eq_refl) as [llob ->].
  cbn [bind]. eexists. reflexivity.
Qed.

(** X4. The balance lines are computed for every non-empty list of
    values, numbers or NaN; on the empty list the mean's division by the
    length raises ZeroDivisionError, before [max] is reached. *)
Theorem balance_lines_fails_only_on_empty :
  balance_lines [] = Raise ZeroDivisionError
  /\ forall v vs, exists bl, balance_lines (v :: vs) = Ok bl.
Proof.
  split; [reflexivity | exact balance_lines_nonempty].
Qed.

(** ** The strengths and the keys of the dataset *)

Lemma mapM_Ok_inv {A B : Type} (f : A -> result B) (l : list A) (bs : list B) :
  mapM f l = Ok bs -> forall x, In x l -> exists y, f x = Ok y.
Proof.
  revert bs. induction l as [| a l IH]; intros bs H x Hx; [destruct Hx |].
  cbn [mapM] in H.
  destruct (f a) as [b |] eqn:Ea; [| discriminate H].
  cbn [bind] in H.
  destruct (mapM f l) as [bs' |] eqn:El; [| discriminate H].
  destruct Hx as [<- | Hx]; [now exists b | now apply (IH bs')].
Qed.

Lemma mapM_Raise_inv {A B : Type} (f : A -> result B) (l : list A) (e : exn) :
  mapM f l = Raise e -> exists x, In x l /\ f x = Raise e.
Proof.
  induction l as [| a l IH]; intros H; [discriminate H |].
  cbn [mapM] in H.
  destruct (f a) as [b |] eqn:Ea.
  - cbn [bind] in H.
    destruct (mapM f l) as [bs' |] eqn:El; [discriminate H |].
    cbn [bind] in H. injection H as <-.
    destruct (IH eq_refl) as (x & Hx & Hfx). exists x. split; [now right | exact Hfx].
  - cbn [bind] in H. injection H as <-. exists a. split; [now left | exact Ea].
Qed.

Lemma getitem_None (d : dataset) (z : string) :
  ~ In z (map fst d) -> getitem d z = Raise KeyError.
Proof.
  unfold getitem. induction d as [| [k v] d IH]; intros H; [reflexivity |].
  cbn [assoc]. destruct (String.eqb z k) eqn:E.
  - apply String.eqb_eq in E. subst k. exfalso. apply H. now left.
  - apply IH. intros Hin. apply H. now right.
Qed.

Lemma sum_zones_Ok (d : dataset) (zl : list string) (acc : pyfloat) :
  (forall z, In z zl -> In z (map fst d)) ->
  exists s, sum_zones d zl acc = Ok s.
Proof.
  revert acc. induction zl as [| z zl IH]; intros acc H.
  - now exists acc.
  - cbn [sum_zones].
    destruct (key_is_found d z (H z (or_introl eq_refl))) as (v & -> & _).
    cbn [bind]. apply IH. intros z' Hz'. apply H. now right.
Qed.

Lemma sum_zones_Raise (d : dataset) (zl : list string) (acc : pyfloat) (e : exn) :
  sum_zones d zl acc = Raise e ->
  e = KeyError /\ exists z, In z zl /\ ~ In z (map fst d).
Proof.
  revert acc. induction zl as [| z zl IH]; intros acc H; [discriminate H |].
  cbn [sum_zones] in H. unfold getitem in H.
  destruct (assoc z d) as [v |] eqn:Ez.
  - cbn [bind] in H. destruct (IH _ H) as (He & z' & Hz' & Hn).
    split; [exact He |]. exists z'. split; [now right | exact Hn].
  - cbn [bind] in H. injection H as <-. split; [reflexivity |].
    exists z. split; [now left |].
    intros Hin. destruct (key_is_found d z Hin) as (v & Hv & _).
    unfold getitem in Hv. rewrite Ez in Hv. discriminate Hv.
Qed.

Lemma sum_zones_missing (d : dataset) (zl : list string) (acc : pyfloat) (z : string) :
  In z zl -> ~ In z (map fst d) -> sum_zones d zl acc = Raise KeyError.
Proof.
  intros Hz Hn.
  destruct (sum_zones d zl acc) as [s |] eqn:E.
  - exfalso. revert acc s E.
    induction zl as [| z' zl IH]; intros acc s E; [destruct Hz |].
    cbn [sum_zones] in E.
    destruct Hz as [-> | Hz].
    + rewrite (getitem_None d z Hn) in E. discriminate E.
    + destruct (getitem d z') as [v |]; [| discriminate E].
      cbn [bind] in E. exact (IH Hz _ _ E).
  - destruct (sum_zones_Raise _ _ _ _ E) as [-> _]. reflexivity.
Qed.

Lemma prakriti_strength_complete (d : dataset) :
  (forall z, In z zones -> In z (map fst d)) ->
  exists sf sw sa,
    prakriti_strength d = Ok [("Fire", sf); ("Water", sw); ("Air", sa)].
Proof.
  intros Hall. unfold prakriti_strength, prakriti_map. cbn [mapM snd fst].
  assert (Hg : forall zl acc,
             (forall z, In z zl -> In z zones) ->
             exists s, sum_zones d zl acc = Ok s).
  { intros zl acc Hzl. apply sum_zones_Ok.
    intros z Hz. apply Hall. now apply Hzl. }
  destruct (Hg ["E"; "ESE"; "SE"; "SSE"; "S"; "SSW"] (Num 0)) as [sf ->];
    [intros z Hz; cbn in Hz |- *; tauto |].
  destruct (Hg ["NNW"; "N"; "NNE"; "NE"; "ENE"] (Num 0)) as [sw ->];
    [intros z Hz; cbn in Hz |- *; tauto |].
  destruct (Hg ["SW"; "WSW"; "W"; "WNW"; "NW"] (Num 0)) as [sa ->];
    [intros z Hz; cbn in Hz |- *; tauto |].
  now exists sf, sw, sa.
Qed.

(** X10. The strengths are computed exactly when every one of the
    sixteen zones is a key of the dataset: then there is one entry for
    Fire, Water and Air, in this order; and when some zone is missing
    from the dataset, the lookup raises KeyError. *)
Theorem prakriti_strength_needs_all_zones (d : dataset) :
  ((forall z, In z zones -> In z (map fst d)) ->
   exists sf sw sa,
     prakriti_strength d = Ok [("Fire", sf); ("Water", sw); ("Air", sa)])
  /\ ((exists z, In z zones /\ ~ In z (map fst d)) ->
      prakriti_strength d = Raise KeyError).
Proof.
  split.
  - apply prakriti_strength_complete.
  - intros (z & Hz & Hn).
    destruct (prakriti_strength d) as [s |] eqn:E.
    + exfalso. apply group_zones_are_zones in Hz.
      apply in_concat in Hz. destruct Hz as (zl & Hzl & Hzin).
      apply in_map_iff in Hzl. destruct Hzl as ([p zl'] & Ep & Hp).
      cbn [snd] in Ep. subst zl'.
      unfold prakriti_strength in E.
      destruct (mapM_Ok_inv _ _ _ E (p, zl) Hp) as (y & Hy).
      cbn [snd fst] in Hy.
      rewrite (sum_zones_missing d zl (Num 0) z Hzin Hn) in Hy.
      discriminate Hy.
    + unfold prakriti_strength in E.
      destruct (mapM_Raise_inv _ _ _ E) as ([p zl] & _ & Hf).
      cbn [snd fst] in Hf.
      destruct (sum_zones d zl (Num 0)) as [s |] eqn:Es; [discriminate Hf |].
      cbn [bind] in Hf. injection Hf as <-.
      destruct (sum_zones_Raise _ _ _ _ Es) as [-> _]. reflexivity.
Qed.

Lemma sum_zones_frame (d d' : dataset) (zl : list string) (acc : pyfloat) :
  (forall z, In z zl -> getitem d z = getitem d' z) ->
  sum_zones d zl acc = sum_zones d' zl acc.
Proof.
  revert acc. induction zl as [| z zl IH]; intros acc H; [reflexivity |].
  cbn [sum_zones]. rewrite (H z (or_introl eq_refl)).
  destruct (getitem d' z); [| reflexivity].
  cbn [bind]. apply IH. intros z' Hz'. apply H. now right.
Qed.

(** X11. A group's strength depends on the values of its own zones
    only: two datasets that agree on the zones of a group give that
    group the same strength, whatever they hold for the other zones. *)
Theorem strength_of_own_zones (d d' : dataset) (p : string) (zl : list string)
  (s s' : list (string * pyfloat)) :
  In (p, zl) prakriti_map ->
  (forall z, In z zl -> getitem d z = getitem d' z) ->
  prakriti_strength d = Ok s ->
  prakriti_strength d' = Ok s' ->
  lookup s p = lookup s' p
  /\ exists v, lookup s p = Ok v /\ sum_zones d zl (Num 0) = Ok v.
Proof.
  intros Hp Hagree Hs Hs'.
  pose proof (sum_zones_frame d d' zl (Num 0) Hagree) as Hf.
  unfold prakriti_strength, prakriti_map in Hs, Hs'.
  cbn [mapM snd fst] in Hs, Hs'.
  destruct (sum_zones d ["E"; "ESE"; "SE"; "SSE"; "S"; "SSW"] (Num 0))
    as [f |] eqn:Ef; [| discriminate Hs].
  destruct (sum_zones d ["NNW"; "N"; "NNE"; "NE"; "ENE"] (Num 0))
    as [w |] eqn:Ew; [| discriminate Hs].
  destruct (sum_zones d ["SW"; "WSW"; "W"; "WNW"; "NW"] (Num 0))
    as [a |] eqn:Ea; [| discriminate Hs].
  destruct (sum_zones d' ["E"; "ESE"; "SE"; "SSE"; "S"; "SSW"] (Num 0))
    as [f' |] eqn:Ef'; [| discriminate Hs'].
  destruct (sum_zones d' ["NNW"; "N"; "NNE"; "NE"; "ENE"] (Num 0))
    as [w' |] eqn:Ew'; [| discriminate Hs'].
  destruct (sum_zones d' ["SW"; "WSW"; "W"; "WNW"; "NW"] (Num 0))
    as [a' |] eqn:Ea'; [| discriminate Hs'].
  cbn [bind] in Hs, Hs'. injection Hs as <-. injection Hs' as <-.
  unfold prakriti_map in Hp. cbn [In] in Hp.
  destruct Hp as [Hp | [Hp | [Hp | []]]]; injection Hp as <- <-;
    rewrite ?Ef, ?Ew, ?Ea, ?Ef', ?Ew', ?Ea' in Hf;
    injection Hf as <-;
    (split; [reflexivity | eexists; split; [reflexivity | assumption]]).
Qed.

Lemma strength_of_own_zones_witness :
  lookup (strengths (0 + 100 + 100 + 100 + 100 + 100 + 100)
                    (0 + 100 + 100 + 100 + 100 + 100)
                    (0 + 100 + 100 + 100 + 100 + 100)) "Water"
  = lookup (strengths (0 + 5 + 6 + 7 + 8 + 9 + 10)
                      (0 + 100 + 100 + 100 + 100 + 100)
                      (0 + 11 + 12 + 13 + 14 + 15)) "Water"
  /\ exists v,
       lookup (strengths (0 + 100 + 100 + 100 + 100 + 100 + 100)
                         (0 + 100 + 100 + 100 + 100 + 100)
                         (0 + 100 + 100 + 100 + 100 + 100)) "Water" = Ok v
       /\ sum_zones (numeric_data (repeat 100 16))
                    ["NNW"; "N"; "NNE"; "NE"; "ENE"] (Num 0) = Ok v.
Proof.
  apply (strength_of_own_zones
           (numeric_data (repeat 100 16))
           (numeric_data [100; 100; 100; 100; 5; 6; 7; 8; 9; 10;
                          11; 12; 13; 14; 15; 100])
           "Water" ["NNW"; "N"; "NNE"; "NE"; "ENE"]).
  - right; left. reflexivity.
  - intros z Hz. cbn in Hz.
    repeat (destruct Hz as [<- | Hz]; [reflexivity |]). destruct Hz.
  - reflexivity.
  - reflexivity.
Defined.

(** ** How the script can end *)

Lemma load_manual_Raise (zs : list string) (console : list (option pyfloat))
  (e : exn) :
  load_manual zs console = Raise e -> e = EOFError \/ e = ValueError.
Proof.
  revert console. induction zs as [| z zs IH]; intros console H; [discriminate H |].
  cbn [load_manual] in H. destruct console as [| [v |] console].
  - injection H as <-. now left.
  - destruct (load_manual zs console) as [d |] eqn:E; [discriminate H |].
    cbn [bind] in H. injection H as <-. now apply (IH console).
  - injection H as <-. now right.
Qed.

Lemma percentage_Raise (s : list (string * pyfloat)) (e : exn) :
  prakriti_percentage s = Raise e ->
  e = ZeroDivisionError /\ exists t, total_prakriti s = Num t /\ t == 0.
Proof.
  unfold prakriti_percentage. intros H.
  destruct (mapM_Raise_inv _ _ _ H) as (x & _ & Hx).
  unfold py_truediv in Hx.
  destruct (total_prakriti s) as [t |].
  - destruct (Qeq_bool t 0) eqn:Et.
    + cbn [bind] in Hx. injection Hx as <-. split; [reflexivity |].
      exists t. split; [reflexivity | now apply Qeq_bool_iff].
    + destruct (snd x); discriminate Hx.
  - discriminate Hx.
Qed.

Lemma analyse_Raise (d : dataset) (e : exn) :
  map fst d = zones ->
  analyse d = Raise e ->
  e = ZeroDivisionError
  /\ exists s t, prakriti_strength d = Ok s /\ total_prakriti s = Num t /\ t == 0.
Proof.
  intros K H. unfold analyse in H.
  assert (Hne : exists v vs, areas_of d = v :: vs).
  { unfold areas_of. destruct d as [| [z v] d]; [discriminate K |].
    now exists v, (map snd d). }
  destruct Hne as (v & vs & Ea). rewrite Ea in H.
  destruct (balance_lines_nonempty v vs) as [bl Ebl]. rewrite Ebl in H.
  cbn [bind] in H.
  destruct (prakriti_strength_complete d) as (sf & sw & sa & Es);
    [intros z Hz; now rewrite K |].
  rewrite Es in H. cbn [bind] in H.
  destruct (prakriti_percentage [("Fire", sf); ("Water", sw); ("Air", sa)])
    as [pct |] eqn:Ep; [discriminate H |].
  cbn [bind] in H. injection H as <-.
  destruct (percentage_Raise _ _ Ep) as (-> & t & Ht & Ht0).
  split; [reflexivity |]. now exists [("Fire", sf); ("Water", sw); ("Air", sa)], t.
Qed.

Lemma main_Raise_cases (choice : string) (console : list (option pyfloat))
  (file : option sheet) (e : exn) :
  main choice console file = Raise e ->
  (e = SystemExit /\ choice <> "1" /\ choice <> "2")
  \/ (choice = "1" /\ (e = EOFError \/ e = ValueError)
      /\ load_manual zones console = Raise e)
  \/ (choice = "2" /\ e = FileNotFoundError /\ file = None)
  \/ (choice = "2" /\ e = ValueError
      /\ exists df, file = Some df /\ has_duplicates (map fst df) = true)
  \/ (e = ZeroDivisionError
      /\ exists d s t,
           load choice console file = Ok d
           /\ prakriti_strength d = Ok s
           /\ total_prakriti s = Num t /\ t == 0).
Proof.
  intros H. unfold main in H.
  destruct (load choice console file) as [d |] eqn:El.
  - cbn [bind] in H.
    destruct (analyse_Raise d e (load_keys _ _ _ _ El) H) as (-> & s & t & Hs & Ht & H0).
    right; right; right; right. split; [reflexivity |]. now exists d, s, t.
  - cbn [bind] in H. injection H as <-. unfold load in El.
    destruct (choice_cases choice)
      as [[C E1] | [(C & E1 & E2) | (C1 & C2 & E1 & E2)]];
      rewrite E1, ?E2 in El.
    + right; left. split; [exact C |].
      split; [now apply (load_manual_Raise zones console) | exact El].
    + destruct file as [df |].
      * right; right; right; left. unfold load_excel, reindex in El.
        destruct (has_duplicates (map fst df)) eqn:Ed; [| discriminate El].
        injection El as <-. split; [exact C |]. split; [reflexivity |].
        now exists df.
      * right; right; left. injection El as <-. now repeat split.
    + left. injection El as <-. now repeat split.
Qed.

(** X14. The script exits without loading anything exactly when the
    selector is neither "1" nor "2". *)
Theorem exit_iff_other_choice (choice : string)
  (console : list (option pyfloat)) (file : option sheet) :
  main choice console file = Raise SystemExit
  <-> (choice <> "1" /\ choice <> "2").
Proof.
  split.
  - intros H.
    destruct (main_Raise_cases _ _ _ _ H)
      as [(_ & C) | [(_ & [E | E] & _) | [(_ & E & _) | [(_ & E & _) | (E & _)]]]];
      try discriminate E.
    exact C.
  - intros [C1 C2]. unfold main, load.
    apply String.eqb_neq in C1, C2. now rewrite C1, C2.
Qed.

(** ** The tables of the report *)

Lemma combine_keys_values (d : dataset) :
  combine (map fst d) (map snd d) = d.
Proof.
  induction d as [| [z v] d IH]; [reflexivity |].
  cbn [map fst snd combine]. now rewrite IH.
Qed.

Lemma loaded_shape (d : dataset) :
  map fst d = zones ->
  exists vs, List.length vs = 16%nat /\ d = combine zones vs.
Proof.
  intros K. exists (map snd d). split.
  - rewrite length_map, <- (length_map fst d), K. reflexivity.
  - rewrite <- K. symmetry. apply combine_keys_values.
Qed.

(** X15. In every report the script produces, the two tables are built
    without a failed lookup.  The zone table has one row per zone, in
    the order of [zones], holding the zone's own area and the remark of
    that area; the Prakriti table has the rows Fire, Water, Air, each
    with the group's own strength and percentage. *)
Theorem report_tables (choice : string) (console : list (option pyfloat))
  (file : option sheet) (r : report) :
  main choice console file = Ok r ->
  exists d,
    load choice console file = Ok d
    /\ map fst (rep_remarks r) = zones
    /\ zone_table d (rep_remarks r)
       = Ok (map (fun zv => (fst zv, snd zv, remark (rep_lines r) (snd zv))) d)
    /\ exists sf sw sa pf pw pa,
         rep_strength r = [("Fire", sf); ("Water", sw); ("Air", sa)]
         /\ rep_percentage r = [("Fire", pf); ("Water", pw); ("Air", pa)]
         /\ prakriti_table (rep_strength r) (rep_percentage r)
            = Ok [("Fire", sf, pf); ("Water", sw, pw); ("Air", sa, pa)].
Proof.
  intros H. unfold main in H.
  destruct (load choice console file) as [d |] eqn:El; [| discriminate H].
  cbn [bind] in H. exists d. split; [reflexivity |].
  pose proof (load_keys _ _ _ _ El) as K.
  destruct (prakriti_strength_complete d) as (sf & sw & sa & Es);
    [intros z Hz; now rewrite K |].
  unfold analyse in H.
  destruct (balance_lines (areas_of d)) as [bl |]; [| discriminate H].
  cbn [bind] in H. rewrite Es in H. cbn [bind] in H.
  unfold prakriti_percentage in H. cbn [mapM snd fst] in H.
  destruct (py_truediv sf _) as [qf |]; [| discriminate H].
  destruct (py_truediv sw _) as [qw |]; [| discriminate H].
  destruct (py_truediv sa _) as [qa |]; [| discriminate H].
  cbn [bind] in H. injection H as <-.
  cbn [rep_remarks rep_lines rep_strength rep_percentage].
  destruct (loaded_shape d K) as (vs & Hlen & ->).
  do 17 (destruct vs as [| ? vs]; try discriminate Hlen).
  split; [reflexivity |].
  split; [reflexivity |].
  do 6 eexists. split; [reflexivity |]. split; reflexivity.
Qed.

Lemma report_tables_witness :
  exists d,
    load "1" (repeat (Some (Num 100)) 16) None = Ok d
    /\ map fst (remarks (mkLines (Num (1600 # 16)) (Num (3200 # 32)) (Num (3200 # 32)))
                        (numeric_data (repeat 100 16))) = zones
    /\ zone_table d (remarks (mkLines (Num (1600 # 16)) (Num (3200 # 32))
                                      (Num (3200 # 32)))
                             (numeric_data (repeat 100 16)))
       = Ok (map (fun zv =>
                    (fst zv, snd zv,
                     remark (mkLines (Num (1600 # 16)) (Num (3200 # 32))
                                     (Num (3200 # 32))) (snd zv))) d)
    /\ exists sf sw sa pf pw pa,
         strengths 600 500 500 = [("Fire", sf); ("Water", sw); ("Air", sa)]
         /\ strengths (60000 # 1600) (50000 # 1600) (50000 # 1600)
            = [("Fire", pf); ("Water", pw); ("Air", pa)]
         /\ prakriti_table (strengths 600 500 500)
                           (strengths (60000 # 1600) (50000 # 1600) (50000 # 1600))
            = Ok [("Fire", sf, pf); ("Water", sw, pw); ("Air", sa, pa)].
Proof.
  apply (report_tables "1" (repeat (Some (Num 100)) 16) None
           (mkReport
              (mkLines (Num (1600 # 16)) (Num (3200 # 32)) (Num (3200 # 32)))
              (remarks (mkLines (Num (1600 # 16)) (Num (3200 # 32)) (Num (3200 # 32)))
                       (numeric_data (repeat 100 16)))
              (strengths 600 500 500)
              (strengths (60000 # 1600) (50000 # 1600) (50000 # 1600))
              (strengths 600 500 500)
              "Fire-Water-Air")).
  vm_compute. reflexivity.
Defined.

(** ** The name of the report file *)

Lemma lstrip_head (s : list N) (c : N) (t : list N) :
  lstrip s = c :: t -> is_space c = false.
Proof.
  induction s as [| x s IH]; intros H; [discriminate H |].
  cbn [lstrip] in H. destruct (is_space x) eqn:E; [now apply IH |].
  injection H as <- _. exact E.
Qed.

Lemma lstrip_nil_iff (s : list N) :
  lstrip s = [] <-> forallb is_space s = true.
Proof.
  induction s as [| x s IH]; [now split |].
  cbn [lstrip forallb]. destruct (is_space x); cbn [andb].
  - exact IH.
  - split; discriminate.
Qed.

Lemma lstrip_keeps_last (l : list N) (c : N) :
  is_space c = false -> lstrip (l ++ [c])%list = (lstrip l ++ [c])%list.
Proof.
  intros Hc. induction l as [| x l IH]; cbn [app lstrip].
  - now rewrite Hc.
  - destruct (is_space x); [exact IH | reflexivity].
Qed.

Lemma rstrip_cons (c : N) (t : list N) :
  is_space c = false -> rstrip (c :: t) = c :: rstrip t.
Proof.
  intros Hc. unfold rstrip. cbn [rev].
  rewrite (lstrip_keeps_last (rev t) c Hc), rev_app_distr. reflexivity.
Qed.

Lemma strip_head (s : list N) (c : N) (t : list N) :
  strip s = c :: t -> is_space c = false.
Proof.
  unfold strip. destruct (lstrip s) as [| x u] eqn:E; [discriminate |].
  pose proof (lstrip_head s x u E) as Hx.
  rewrite (rstrip_cons x u Hx). intros H. injection H as <- _. exact Hx.
Qed.

Lemma strip_last (s : list N) (c : N) (t : list N) :
  strip s = (t ++ [c])%list -> is_space c = false.
Proof.
  unfold strip, rstrip. intros H.
  apply (f_equal (@rev N)) in H.
  rewrite rev_involutive, rev_app_distr in H. cbn [rev app] in H.
  exact (lstrip_head _ _ _ H).
Qed.

Lemma strip_nil_iff (s : list N) :
  strip s = [] <-> forallb is_space s = true.
Proof.
  unfold strip. destruct (lstrip s) as [| x u] eqn:E.
  - split; [intros _; now apply lstrip_nil_iff | reflexivity].
  - pose proof (lstrip_head s x u E) as Hx.
    rewrite (rstrip_cons x u Hx). split; [discriminate |].
    intros H. apply lstrip_nil_iff in H. rewrite H in E. discriminate E.
Qed.

Lemma rstrip_fixed (s : list N) :
  (forall c t, s = (t ++ [c])%list -> is_space c = false) -> rstrip s = s.
Proof.
  intros H. unfold rstrip.
  destruct (rev s) as [| c u] eqn:E.
  - cbn. apply (f_equal (@rev N)) in E. now rewrite rev_involutive in E.
  - assert (Hs : s = (rev u ++ [c])%list).
    { apply (f_equal (@rev N)) in E. now rewrite rev_involutive in E. }
    cbn [lstrip]. rewrite (H c (rev u) Hs). now rewrite <- E, rev_involutive.
Qed.

Lemma lstrip_fixed (s : list N) :
  (forall c t, s = c :: t -> is_space c = false) -> lstrip s = s.
Proof.
  intros H. destruct s as [| c t]; [reflexivity |].
  cbn [lstrip]. now rewrite (H c t eq_refl).
Qed.

Lemma strip_idempotent (s : list N) : strip (strip s) = strip s.
Proof.
  unfold strip at 1.
  rewrite (lstrip_fixed (strip s) (strip_head s)).
  apply rstrip_fixed. apply strip_last.
Qed.

Lemma last_code_differs (a b : list N) (x y : N) :
  x <> y -> (a ++ [x])%list <> (b ++ [y])%list.
Proof.
  intros Hxy H. apply app_inj_tail in H. destruct H as [_ H]. contradiction.
Qed.

(** X16. The report is written to a file whose name ends in ".pdf" and
    has a stem that is not empty and neither starts nor ends with white
    space: the console line stripped of white space at both ends, or
    "Mahavastu_Report" when nothing is left of it, that is, when the line
    is empty or all white space.  The name is never that of one of the
    two chart files the script removes at its end. *)
Theorem pdf_name_shape (line : list N) :
  exists stem,
    pdf_name line = (stem ++ code_points ".pdf")%list
    /\ stem <> []
    /\ strip stem = stem
    /\ (forall c t, stem = c :: t -> is_space c = false)
    /\ (forall c t, stem = (t ++ [c])%list -> is_space c = false)
    /\ (forallb is_space line = true -> stem = code_points "Mahavastu_Report")
    /\ (forallb is_space line = false -> stem = strip line)
    /\ pdf_name line <> zone_chart
    /\ pdf_name line <> prakriti_chart.
Proof.
  unfold pdf_name.
  assert (Hcharts : forall stem : list N,
            (stem ++ code_points ".pdf")%list <> zone_chart
            /\ (stem ++ code_points ".pdf")%list <> prakriti_chart).
  { intros stem. split.
    - change (code_points ".pdf") with ([46; 112; 100] ++ [102])%list%N.
      change zone_chart
        with (code_points "zone_chart.pn" ++ [103])%list%N.
      rewrite app_assoc. apply last_code_differs. discriminate.
    - change (code_points ".pdf") with ([46; 112; 100] ++ [102])%list%N.
      change prakriti_chart
        with (code_points "prakriti_chart.pn" ++ [103])%list%N.
      rewrite app_assoc. apply last_code_differs. discriminate. }
  destruct (strip line) as [| c t] eqn:E.
  - exists (code_points "Mahavastu_Report").
    split; [reflexivity |].
    split; [discriminate |].
    split; [reflexivity |].
    split.
    { intros c t H. injection H as <- _. reflexivity. }
    split.
    { intros c t H.
      change (code_points "Mahavastu_Report")
        with (code_points "Mahavastu_Repor" ++ [116])%list%N in H.
      apply app_inj_tail in H. destruct H as [_ <-]. reflexivity. }
    split; [reflexivity |].
    split.
    { intros H. apply strip_nil_iff in E. congruence. }
    apply Hcharts.
  - exists (c :: t).
    split; [reflexivity |].
    split; [discriminate |].
    split; [rewrite <- E; apply strip_idempotent |].
    split.
    { intros c' t' H. injection H as <- <-. exact (strip_head line c t E). }
    split.
    { intros c' t' H. rewrite H in E. exact (strip_last line c' t' E). }
    split.
    { intros H. apply strip_nil_iff in H. congruence. }
    split; [reflexivity |].
    apply Hcharts.
Qed.

Example pdf_name_of_padded_line :
  pdf_name (code_points "  plot 12 report ") = code_points "plot 12 report.pdf".
Proof. reflexivity. Qed.

Example pdf_name_of_blank_line :
  pdf_name (code_points "   ") = code_points "Mahavastu_Report.pdf".
Proof. reflexivity. Qed.

(** ** The lines and the remarks in binary64 *)

(** X5.  When the balance lines of sixteen values are computed without
    rounding, they lie within the range of the values:
    least <= LLOB <= LOB <= ULOB <= greatest.  Unless the greatest and
    the least value coincide, all these are strict. *)
Theorem unrounded_lines_within_range (zone_data : Binary64.dataset) :
  List.length zone_data = 16%nat ->
  exact_lines (Binary64.areas_of zone_data) = true ->
  exists lob u l hi lo,
    Binary64.balance_lines (Binary64.areas_of zone_data)
    = Ok (Binary64.mkLines lob u l)
    /\ Binary64.py_max (Binary64.areas_of zone_data) = Ok hi
    /\ Binary64.py_min (Binary64.areas_of zone_data) = Ok lo
    /\ (PrimFloat.leb lo l = true /\ PrimFloat.leb l lob = true
        /\ PrimFloat.leb lob u = true /\ PrimFloat.leb u hi = true)
    /\ (PrimFloat.ltb lo hi = true ->
        PrimFloat.ltb lo l = true /\ PrimFloat.ltb l lob = true
        /\ PrimFloat.ltb lob u = true /\ PrimFloat.ltb u hi = true).
Proof.
  intros Hlen Hex. rewrite <- b64_areas_length in Hlen.
  destruct (exact_lines_spec _ Hlen Hex)
    as (lob & u & l & hi & lo & zs & L & U & Lo & H & M
        & Ebl & _ & _ & Hzs & EL & EU & ELo & EH & EM & Hb & E16 & E2U & E2L
        & Hord & HinH & HinM & _ & _ & _ & Ehi & Elo).
  exists lob, u, l, hi, lo.
  split; [exact Ebl |]. split; [exact Ehi |]. split; [exact Elo |].
  split.
  - rewrite (leb_ival _ _ _ _ EM ELo), (leb_ival _ _ _ _ ELo EL),
            (leb_ival _ _ _ _ EL EU), (leb_ival _ _ _ _ EU EH).
    repeat split; apply Z.leb_le; lia.
  - rewrite (ltb_ival _ _ _ _ EM EH). intros Hlt. apply Z.ltb_lt in Hlt.
    pose proof (exact_lines_strict _ zs L H M Hlen Hzs Hb HinH HinM E16 Hlt).
    rewrite (ltb_ival _ _ _ _ EM ELo), (ltb_ival _ _ _ _ ELo EL),
            (ltb_ival _ _ _ _ EL EU), (ltb_ival _ _ _ _ EU EH).
    repeat split; apply Z.ltb_lt; lia.
Qed.

Lemma unrounded_lines_within_range_witness :
  exists lob u l hi lo,
    Binary64.balance_lines (Binary64.areas_of (Binary64.zone_data_of whole_areas))
    = Ok (Binary64.mkLines lob u l)
    /\ Binary64.py_max (Binary64.areas_of (Binary64.zone_data_of whole_areas)) = Ok hi
    /\ Binary64.py_min (Binary64.areas_of (Binary64.zone_data_of whole_areas)) = Ok lo
    /\ (PrimFloat.leb lo l = true /\ PrimFloat.leb l lob = true
        /\ PrimFloat.leb lob u = true /\ PrimFloat.leb u hi = true)
    /\ (PrimFloat.ltb lo hi = true ->
        PrimFloat.ltb lo l = true /\ PrimFloat.ltb l lob = true
        /\ PrimFloat.ltb lob u = true /\ PrimFloat.ltb u hi = true).
Proof.
  apply (unrounded_lines_within_range (Binary64.zone_data_of whole_areas));
    vm_compute; reflexivity.
Defined.

(** X6.  When the balance lines of sixteen values are computed without
    rounding and the values are not all equal, the greatest value is
    remarked "High" and the least value is remarked "Low"; so the
    remarks are "Balanced" throughout exactly when the sixteen values
    are equal. *)
Theorem unrounded_balanced_iff_equal (zone_data : Binary64.dataset) :
  List.length zone_data = 16%nat ->
  exact_lines (Binary64.areas_of zone_data) = true ->
  exists lob u l hi lo,
    Binary64.balance_lines (Binary64.areas_of zone_data)
    = Ok (Binary64.mkLines lob u l)
    /\ Binary64.py_max (Binary64.areas_of zone_data) = Ok hi
    /\ Binary64.py_min (Binary64.areas_of zone_data) = Ok lo
    /\ (PrimFloat.ltb lo hi = true ->
        Binary64.remark (Binary64.mkLines lob u l) hi = "High"
        /\ Binary64.remark (Binary64.mkLines lob u l) lo = "Low")
    /\ (Forall (fun zr => snd zr = "Balanced")
               (Binary64.remarks (Binary64.mkLines lob u l) zone_data)
        <-> forall v w, In v (Binary64.areas_of zone_data) ->
                        In w (Binary64.areas_of zone_data) ->
                        PrimFloat.eqb v w = true).
Proof.
  intros Hlen Hex. rewrite <- b64_areas_length in Hlen.
  destruct (exact_lines_spec _ Hlen Hex)
    as (lob & u & l & hi & lo & zs & L & U & Lo & H & M
        & Ebl & Hhi & Hlo & Hzs & EL & EU & ELo & EH & EM & Hb & E16 & E2U & E2L
        & Hord & HinH & HinM & _ & _ & _ & Ehi & Elo).
  exists lob, u, l, hi, lo.
  split; [exact Ebl |]. split; [exact Ehi |]. split; [exact Elo |].
  set (bl := Binary64.mkLines lob u l).
  assert (Hstrict : (M < H)%Z ->
            Binary64.remark bl hi = "High" /\ Binary64.remark bl lo = "Low").
  { intros Hlt.
    pose proof (exact_lines_strict _ zs L H M Hlen Hzs Hb HinH HinM E16 Hlt).
    unfold Binary64.remark, Binary64.py_gt, Binary64.py_lt, bl.
    cbn [Binary64.ULOB Binary64.LLOB].
    rewrite (ltb_ival _ _ _ _ EU EH), (ltb_ival _ _ _ _ EU EM),
            (ltb_ival _ _ _ _ EM ELo).
    replace (U <? H)%Z with true by (symmetry; apply Z.ltb_lt; lia).
    replace (U <? M)%Z with false by (symmetry; apply Z.ltb_ge; lia).
    replace (M <? Lo)%Z with true by (symmetry; apply Z.ltb_lt; lia).
    split; reflexivity. }
  split.
  - rewrite (ltb_ival _ _ _ _ EM EH). intros Hlt. apply Z.ltb_lt in Hlt.
    now apply Hstrict.
  - split.
    + intros Hall.
      assert (HMH : M = H).
      { destruct (Z.eq_dec M H) as [E | N]; [exact E | exfalso].
        assert (Hlt : (M < H)%Z) by lia.
        destruct (Hstrict Hlt) as [Hh _].
        destruct (b64_value_has_zone _ _ Hhi) as [z Hz].
        apply (b64_remark_recorded bl) in Hz.
        rewrite Forall_forall in Hall. apply Hall in Hz. cbn [snd] in Hz.
        rewrite Hh in Hz. discriminate Hz. }
      subst M. intros v w Hv Hw.
      destruct (ivals_member _ _ _ Hzs Hv) as (zv & Ev & Hzv).
      destruct (ivals_member _ _ _ Hzs Hw) as (zw & Ew & Hzw).
      rewrite (eqb_ival _ _ _ _ Ev Ew). apply Z.eqb_eq.
      pose proof (Hb zv Hzv). pose proof (Hb zw Hzw). lia.
    + intros Heq.
      pose proof (Heq hi lo Hhi Hlo) as E.
      rewrite (eqb_ival _ _ _ _ EH EM) in E. apply Z.eqb_eq in E. subst M.
      unfold Binary64.remarks. apply Forall_map. apply Forall_forall.
      intros [z v] Hzv. cbn [snd].
      assert (Hv : In v (Binary64.areas_of zone_data)).
      { unfold Binary64.areas_of. apply in_map_iff. now exists (z, v). }
      destruct (ivals_member _ _ _ Hzs Hv) as (zv & Ev & Hin).
      pose proof (Hb zv Hin) as Bv.
      unfold Binary64.remark, Binary64.py_gt, Binary64.py_lt, bl.
      cbn [Binary64.ULOB Binary64.LLOB].
      rewrite (ltb_ival _ _ _ _ EU Ev), (ltb_ival _ _ _ _ Ev ELo).
      replace (U <? zv)%Z with false by (symmetry; apply Z.ltb_ge; lia).
      replace (zv <? Lo)%Z with false by (symmetry; apply Z.ltb_ge; lia).
      reflexivity.
Qed.

Lemma unrounded_balanced_iff_equal_witness :
  exists lob u l hi lo,
    Binary64.balance_lines (Binary64.areas_of (Binary64.zone_data_of whole_areas))
    = Ok (Binary64.mkLines lob u l)
    /\ Binary64.py_max (Binary64.areas_of (Binary64.zone_data_of whole_areas)) = Ok hi
    /\ Binary64.py_min (Binary64.areas_of (Binary64.zone_data_of whole_areas)) = Ok lo
    /\ (PrimFloat.ltb lo hi = true ->
        Binary64.remark (Binary64.mkLines lob u l) hi = "High"
        /\ Binary64.remark (Binary64.mkLines lob u l) lo = "Low")
    /\ (Forall (fun zr => snd zr = "Balanced")
               (Binary64.remarks (Binary64.mkLines lob u l)
                                 (Binary64.zone_data_of whole_areas))
        <-> forall v w,
              In v (Binary64.areas_of (Binary64.zone_data_of whole_areas)) ->
              In w (Binary64.areas_of (Binary64.zone_data_of whole_areas)) ->
              PrimFloat.eqb v w = true).
Proof.
  apply (unrounded_balanced_iff_equal (Binary64.zone_data_of whole_areas));
    vm_compute; reflexivity.
Defined.

(** ** The order of the zones *)

Lemma Zsum_perm (zs zs' : list Z) : Permutation zs zs' -> Zsum zs = Zsum zs'.
Proof.
  induction 1 as [| x l l' _ IH | x y l | l l' l'' _ IH1 _ IH2].
  - reflexivity.
  - change (x + Zsum l = x + Zsum l')%Z. now rewrite IH.
  - change (y + (x + Zsum l) = x + (y + Zsum l))%Z. lia.
  - now rewrite IH1.
Qed.

Lemma ivals_perm (vs vs' : list float) (zs zs' : list Z) :
  Permutation vs vs' ->
  map ival vs = map Some zs -> map ival vs' = map Some zs' ->
  Permutation zs zs'.
Proof.
  intros P H H'.
  pose proof (Permutation_map ival P) as PM. rewrite H, H' in PM.
  apply Permutation_sym in PM.
  destruct (Permutation_map_inv _ _ PM) as (l3 & E & P3).
  apply map_Some_inj in E. subst l3. exact P3.
Qed.

Lemma ltb_same_ival_l (x x' y : float) (a : Z) :
  ival x = Some a -> ival x' = Some a -> PrimFloat.ltb x y = PrimFloat.ltb x' y.
Proof.
  intros Hx Hx'. destruct (rank y) as [b |] eqn:Ry.
  - now rewrite (ltb_rank _ _ _ _ (ival_rank _ _ Hx) Ry),
                (ltb_rank _ _ _ _ (ival_rank _ _ Hx') Ry).
  - now rewrite !(ltb_unranked_r _ y Ry).
Qed.

Lemma ltb_same_ival_r (x x' y : float) (a : Z) :
  ival x = Some a -> ival x' = Some a -> PrimFloat.ltb y x = PrimFloat.ltb y x'.
Proof.
  intros Hx Hx'. destruct (rank y) as [b |] eqn:Ry.
  - now rewrite (ltb_rank _ _ _ _ Ry (ival_rank _ _ Hx)),
                (ltb_rank _ _ _ _ Ry (ival_rank _ _ Hx')).
  - now rewrite !(ltb_unranked_l y _ Ry).
Qed.

(** X7.  The lines do not depend on the order in which the zones are
    listed, as long as nothing is rounded: two lists holding the same
    sixteen values, both computed without rounding, get equal lines and
    give every value the same remark. *)
Theorem unrounded_lines_ignore_order (vs vs' : list float) :
  List.length vs = 16%nat ->
  Permutation vs vs' ->
  exact_lines vs = true ->
  exact_lines vs' = true ->
  exists bl bl',
    Binary64.balance_lines vs = Ok bl
    /\ Binary64.balance_lines vs' = Ok bl'
    /\ PrimFloat.eqb (Binary64.LOB bl) (Binary64.LOB bl') = true
    /\ PrimFloat.eqb (Binary64.ULOB bl) (Binary64.ULOB bl') = true
    /\ PrimFloat.eqb (Binary64.LLOB bl) (Binary64.LLOB bl') = true
    /\ forall v, Binary64.remark bl v = Binary64.remark bl' v.
Proof.
  intros Hlen P Hex Hex'.
  assert (Hlen' : List.length vs' = 16%nat)
    by (rewrite <- (Permutation_length P); exact Hlen).
  destruct (exact_lines_spec _ Hlen Hex)
    as (lob & u & l & hi & lo & zs & L & U & Lo & H & M
        & Ebl & _ & _ & Hzs & EL & EU & ELo & _ & _ & Hb & E16 & E2U & E2L
        & _ & HinH & HinM & _).
  destruct (exact_lines_spec _ Hlen' Hex')
    as (lob' & u' & l' & hi' & lo' & zs' & L' & U' & Lo' & H' & M'
        & Ebl' & _ & _ & Hzs' & EL' & EU' & ELo' & _ & _ & Hb' & E16' & E2U' & E2L'
        & _ & HinH' & HinM' & _).
  pose proof (ivals_perm _ _ _ _ P Hzs Hzs') as PZ.
  pose proof (Zsum_perm _ _ PZ) as ES.
  assert (HH : H = H').
  { pose proof (Hb' H (Permutation_in _ PZ HinH)).
    pose proof (Hb H' (Permutation_in _ (Permutation_sym PZ) HinH')). lia. }
  assert (HM : M = M').
  { pose proof (Hb' M (Permutation_in _ PZ HinM)).
    pose proof (Hb M' (Permutation_in _ (Permutation_sym PZ) HinM')). lia. }
  assert (HL : L = L') by lia.
  assert (HU : U = U') by lia.
  assert (HLo : Lo = Lo') by lia.
  subst H' M' L' U' Lo'.
  exists (Binary64.mkLines lob u l), (Binary64.mkLines lob' u' l').
  split; [exact Ebl |]. split; [exact Ebl' |].
  cbn [Binary64.LOB Binary64.ULOB Binary64.LLOB].
  rewrite (eqb_ival _ _ _ _ EL EL'), (eqb_ival _ _ _ _ EU EU'),
          (eqb_ival _ _ _ _ ELo ELo'), !Z.eqb_refl.
  split; [reflexivity |]. split; [reflexivity |]. split; [reflexivity |].
  intros v. unfold Binary64.remark, Binary64.py_gt, Binary64.py_lt.
  cbn [Binary64.ULOB Binary64.LLOB].
  now rewrite (ltb_same_ival_l u u' v U EU EU'), (ltb_same_ival_r l l' v Lo ELo ELo').
Qed.

Lemma unrounded_lines_ignore_order_witness :
  exists bl bl',
    Binary64.balance_lines whole_areas = Ok bl
    /\ Binary64.balance_lines (rev whole_areas) = Ok bl'
    /\ PrimFloat.eqb (Binary64.LOB bl) (Binary64.LOB bl') = true
    /\ PrimFloat.eqb (Binary64.ULOB bl) (Binary64.ULOB bl') = true
    /\ PrimFloat.eqb (Binary64.LLOB bl) (Binary64.LLOB bl') = true
    /\ forall v, Binary64.remark bl v = Binary64.remark bl' v.
Proof.
  apply (unrounded_lines_ignore_order whole_areas (rev whole_areas)).
  - reflexivity.
  - apply Permutation_rev.
  - vm_compute. reflexivity.
  - vm_compute. reflexivity.
Defined.

(** ** Not-a-number in binary64 *)

Lemma add_nan_r (x : float) : PrimFloat.add x nan = nan.
Proof.
  rewrite <- (SF2Prim_Prim2SF (PrimFloat.add x nan)), add_spec.
  change (Prim2SF nan) with S754_nan.
  destruct (Prim2SF x); reflexivity.
Qed.

Lemma add_nan_l (y : float) : PrimFloat.add nan y = nan.
Proof.
  rewrite <- (SF2Prim_Prim2SF (PrimFloat.add nan y)), add_spec.
  change (Prim2SF nan) with S754_nan. reflexivity.
Qed.

Lemma div_nan_l (y : float) : PrimFloat.div nan y = nan.
Proof.
  rewrite <- (SF2Prim_Prim2SF (PrimFloat.div nan y)), div_spec.
  change (Prim2SF nan) with S754_nan. reflexivity.
Qed.

Lemma div_nan_r (x : float) : PrimFloat.div x nan = nan.
Proof.
  rewrite <- (SF2Prim_Prim2SF (PrimFloat.div x nan)), div_spec.
  change (Prim2SF nan) with S754_nan.
  destruct (Prim2SF x); reflexivity.
Qed.

Lemma ltb_nan_l (y : float) : PrimFloat.ltb nan y = false.
Proof. apply ltb_unranked_l. reflexivity. Qed.

Lemma ltb_nan_r (x : float) : PrimFloat.ltb x nan = false.
Proof. apply ltb_unranked_r. reflexivity. Qed.

Lemma fold_add_nan (l : list float) : fold_left PrimFloat.add l nan = nan.
Proof.
  induction l as [| x l IH]; [reflexivity |].
  cbn [fold_left]. now rewrite add_nan_l.
Qed.

Lemma fold_add_with_nan (l : list float) (acc : float) :
  In nan l -> fold_left PrimFloat.add l acc = nan.
Proof.
  revert acc. induction l as [| x l IH]; intros acc H; [destruct H |].
  cbn [fold_left]. destruct H as [-> | H].
  - rewrite add_nan_r. apply fold_add_nan.
  - now apply IH.
Qed.

Lemma b64_sum_with_nan (l : list float) : In nan l -> Binary64.py_sum l = nan.
Proof. apply fold_add_with_nan. Qed.

Lemma b64_remark_nan_lines (v : float) :
  Binary64.remark (Binary64.mkLines nan nan nan) v = "Balanced".
Proof.
  unfold Binary64.remark, Binary64.py_gt, Binary64.py_lt.
  cbn [Binary64.ULOB Binary64.LLOB].
  now rewrite ltb_nan_l, ltb_nan_r.
Qed.

(** X18.  A dataset of sixteen binary64 values one of which is
    not-a-number -- the value of a zone whose row is missing from the
    sheet -- is analysed without an error: the three lines, the total
    strength and the three percentages are not-a-number, and all
    sixteen zones are remarked "Balanced". *)
Theorem binary64_nan_dataset (vs : list float) :
  List.length vs = 16%nat ->
  In nan vs ->
  exists s,
    Binary64.prakriti_strength (Binary64.zone_data_of vs) = Ok s
    /\ Binary64.total_prakriti s = nan
    /\ Binary64.analyse (Binary64.zone_data_of vs)
       = Ok (Binary64.mkFigures
               (Binary64.mkLines nan nan nan)
               (map (fun z => (z, "Balanced")) zones)
               s
               (b64_strengths nan nan nan)).
Proof.
  intros Hlen Hnan.
  destruct (sixteen_values vs Hlen)
    as (v0 & v1 & v2 & v3 & v4 & v5 & v6 & v7 & v8 & v9 & v10 & v11 & v12
        & v13 & v14 & v15 & E).
  assert (Hsum : Binary64.py_sum vs = nan) by now apply b64_sum_with_nan.
  assert (Hl : List.length (Binary64.areas_of (Binary64.zone_data_of vs)) = 16%nat).
  { rewrite b64_areas_length. unfold Binary64.zone_data_of.
    rewrite length_combine, Hlen. reflexivity. }
  assert (Hareas : Binary64.areas_of (Binary64.zone_data_of vs) = vs)
    by (subst vs; reflexivity).
  destruct (b64_lines _ Hl) as (hi & lo & _ & _ & Ebl & _).
  rewrite Hareas, Hsum, div_nan_l, !add_nan_l, !div_nan_l in Ebl.
  set (f := Binary64.py_sum [v4; v5; v6; v7; v8; v9]).
  set (w := Binary64.py_sum [v15; v0; v1; v2; v3]).
  set (a := Binary64.py_sum [v10; v11; v12; v13; v14]).
  assert (Hs : Binary64.prakriti_strength (Binary64.zone_data_of vs)
               = Ok (b64_strengths f w a)).
  { subst vs. apply b64_strength_16. }
  assert (Ht : Binary64.total_prakriti (b64_strengths f w a) = nan).
  { unfold Binary64.total_prakriti, b64_strengths. cbn [map snd].
    apply b64_sum_with_nan.
    assert (Hg : f = nan \/ w = nan \/ a = nan).
    { subst vs. cbn [In] in Hnan.
      unfold f, w, a.
      repeat (destruct Hnan as [Hn | Hnan];
              [subst;
               first [ left; apply b64_sum_with_nan; cbn [In]; tauto
                     | right; left; apply b64_sum_with_nan; cbn [In]; tauto
                     | right; right; apply b64_sum_with_nan; cbn [In]; tauto ] |]).
      destruct Hnan. }
    cbn [In]. destruct Hg as [-> | [-> | ->]]; tauto. }
  exists (b64_strengths f w a). split; [exact Hs |]. split; [exact Ht |].
  unfold Binary64.analyse. rewrite Hareas, Ebl. cbn [bind]. rewrite Hs. cbn [bind].
  rewrite (b64_percentage_nonzero f w a) by (rewrite Ht; reflexivity).
  rewrite Ht, !div_nan_r. cbn [bind].
  replace (PrimFloat.mul nan 100) with nan by reflexivity.
  f_equal. f_equal.
  subst vs. unfold Binary64.remarks, Binary64.zone_data_of.
  cbn [combine zones map fst snd]. now rewrite !b64_remark_nan_lines.
Qed.

Lemma binary64_nan_dataset_witness :
  exists s,
    Binary64.prakriti_strength (Binary64.zone_data_of areas_without_SW) = Ok s
    /\ Binary64.total_prakriti s = nan
    /\ Binary64.analyse (Binary64.zone_data_of areas_without_SW)
       = Ok (Binary64.mkFigures
               (Binary64.mkLines nan nan nan)
               (map (fun z => (z, "Balanced")) zones)
               s
               (b64_strengths nan nan nan)).
Proof.
  apply (binary64_nan_dataset areas_without_SW); [reflexivity |].
  unfold areas_without_SW. cbn [In]. tauto.
Defined.

(** ** The outcome of the analysis *)

(** X17.  On every dataset of sixteen binary64 values -- finite,
    infinite or not-a-number -- lines 86 to 122 either run to the end or
    raise ZeroDivisionError, and they raise exactly when the binary64
    total of the three strengths is equal to zero. *)
Theorem binary64_analysis_outcome (vs : list float) :
  List.length vs = 16%nat ->
  exists f w a,
    Binary64.prakriti_strength (Binary64.zone_data_of vs)
    = Ok (b64_strengths f w a)
    /\ (Binary64.analyse (Binary64.zone_data_of vs) = Raise ZeroDivisionError
        <-> PrimFloat.eqb (Binary64.total_prakriti (b64_strengths f w a)) 0 = true)
    /\ (PrimFloat.eqb (Binary64.total_prakriti (b64_strengths f w a)) 0 = false ->
        exists r, Binary64.analyse (Binary64.zone_data_of vs) = Ok r
                  /\ Binary64.fig_strength r = b64_strengths f w a)
    /\ (forall e, Binary64.analyse (Binary64.zone_data_of vs) = Raise e ->
                  e = ZeroDivisionError).
Proof.
  intros Hlen.
  destruct (b64_strength_computed vs Hlen) as (f & w & a & Hs).
  destruct (b64_analyse_steps vs _ Hlen Hs) as (bl & _ & Hrun).
  exists f, w, a. split; [exact Hs |].
  destruct (PrimFloat.eqb (Binary64.total_prakriti (b64_strengths f w a)) 0) eqn:E.
  - rewrite Hrun, (b64_percentage_zero f w a E). cbn [bind].
    split; [tauto |]. split; [discriminate |].
    intros e He. congruence.
  - rewrite Hrun, (b64_percentage_nonzero f w a E). cbn [bind].
    split; [split; discriminate |].
    split; [intros _; eexists; split; reflexivity |].
    intros e He. discriminate He.
Qed.

Lemma binary64_analysis_outcome_witness :
  exists f w a,
    Binary64.prakriti_strength (Binary64.zone_data_of cancelling_areas)
    = Ok (b64_strengths f w a)
    /\ (Binary64.analyse (Binary64.zone_data_of cancelling_areas)
        = Raise ZeroDivisionError
        <-> PrimFloat.eqb (Binary64.total_prakriti (b64_strengths f w a)) 0 = true)
    /\ (PrimFloat.eqb (Binary64.total_prakriti (b64_strengths f w a)) 0 = false ->
        exists r, Binary64.analyse (Binary64.zone_data_of cancelling_areas) = Ok r
                  /\ Binary64.fig_strength r = b64_strengths f w a)
    /\ (forall e, Binary64.analyse (Binary64.zone_data_of cancelling_areas) = Raise e ->
                  e = ZeroDivisionError).
Proof.
  apply (binary64_analysis_outcome cancelling_areas). reflexivity.
Defined.
